(** * dnss, package httpstodns: the DNS-over-HTTPS query translator

    A shallow embedding of [internal/httpstodns/server.go]: the query
    parser ([parseQuery], [stringToRRType], [stringToBool]) and the request
    handler ([Resolve]), together with the parts of the Go libraries they
    call.  Go strings are byte strings ([string], one [ascii] per byte),
    Go integers are [Z] with the wrap-around of their width written out, a
    Go [map] is a [gmap], and a Go [(value, error)] result is a [res]. *)

From Stdlib Require Import ZArith Ascii String List Lia Bool.
From Stdlib Require Import DecimalString DecimalPos.
From stdpp Require Import gmap strings list fin_maps pretty.

Import ListNotations.
Local Open Scope string_scope.
Local Open Scope Z_scope.

(** ** Errors and results *)

(** A Go [error] is observed here only through its [Error()] text. *)
Definition error := string.

Inductive res (A : Type) : Type :=
| Ok (a : A)
| Err (e : error).
Arguments Ok {A} a.
Arguments Err {A} e.

(** ** Byte strings *)

Module GoString.

Definition byte_of (c : ascii) : Z := Z.of_N (N_of_ascii c).

Definition of_byte (b : Z) : ascii := ascii_of_N (Z.to_N (b mod 256)).

Definition bytes (s : string) : list ascii := list_ascii_of_string s.

Definition of_bytes (l : list ascii) : string := string_of_list_ascii l.

(** [len(s)]: the number of bytes. *)
Definition len (s : string) : Z := Z.of_nat (String.length s).

Definition in_range (lo hi c : ascii) : bool :=
  (byte_of lo <=? byte_of c) && (byte_of c <=? byte_of hi).

(** [utf8.RuneSelf]: bytes below it are ASCII characters. *)
Definition RuneSelf : Z := 128.

Definition isASCII (s : string) : bool :=
  forallb (fun c => byte_of c <? RuneSelf) (bytes s).

Definition lower_byte (c : ascii) : ascii :=
  if in_range "A" "Z" c then of_byte (byte_of c + 32) else c.

Definition upper_byte (c : ascii) : ascii :=
  if in_range "a" "z" c then of_byte (byte_of c - 32) else c.

Definition map_bytes (f : ascii -> ascii) (s : string) : string :=
  of_bytes (map f (bytes s)).

(** [s[n:]]; a slice bound beyond the length panics ([None]). *)
Definition slice_from (s : string) (n : nat) : option string :=
  if (n <=? String.length s)%nat
  then Some (of_bytes (drop n (bytes s)))
  else None.

(** [strings.Cut(s, sep)] for a one-byte separator: the text before the
    first [sep], the text after it, and whether [sep] was found. *)
Fixpoint Cut (sep : ascii) (s : string) : string * string * bool :=
  match s with
  | EmptyString => (EmptyString, EmptyString, false)
  | String c rest =>
      if Ascii.eqb c sep then (EmptyString, rest, true)
      else let '(before, after, found) := Cut sep rest in
           (String c before, after, found)
  end.

(** The pieces of [s] between the occurrences of [sep], in order. *)
Fixpoint split (sep : ascii) (s : string) : list string :=
  match s with
  | EmptyString => [EmptyString]
  | String c rest =>
      if Ascii.eqb c sep then EmptyString :: split sep rest
      else match split sep rest with
           | [] => [String c EmptyString]
           | p :: ps => String c p :: ps
           end
  end.

Fixpoint Contains (c : ascii) (s : string) : bool :=
  match s with
  | EmptyString => false
  | String d rest => Ascii.eqb d c || Contains c rest
  end.

End GoString.

(** ** [strconv] *)

Module strconv.
Import GoString.

Inductive NumError := ErrSyntax | ErrRange.

Definition maxUint64 : Z := 2 ^ 64 - 1.

(** [lower(c)] of strconv: [c | ('x' - 'X')]. *)
Definition lower (c : Z) : Z := Z.lor c 32.

(** The digit loop of [ParseUint] for a base in [2, 36] (no underscores:
    those are accepted for base 0 only).  [n] is the [uint64]
    accumulator. *)
Fixpoint ParseUint_loop (base maxVal cutoff : Z) (cs : list ascii) (n : Z)
  : Z * option NumError :=
  match cs with
  | [] => (n, None)
  | ch :: cs' =>
      let c := byte_of ch in
      let digit :=
        if (48 <=? c) && (c <=? 57) then Some (c - 48)
        else if (97 <=? lower c) && (lower c <=? 122)
             then Some (lower c - 97 + 10)
             else None in
      match digit with
      | None => (0, Some ErrSyntax)
      | Some d =>
          if base <=? d then (0, Some ErrSyntax)
          else if cutoff <=? n then (maxVal, Some ErrRange)
          else
            let n' := n * base in
            let n1 := (n' + d) mod 2 ^ 64 in
            if (n1 <? n') || (maxVal <? n1) then (maxVal, Some ErrRange)
            else ParseUint_loop base maxVal cutoff cs' n1
      end
  end.

Definition ParseUint (s : string) (base bitSize : Z) : Z * option NumError :=
  if String.eqb s EmptyString then (0, Some ErrSyntax)
  else if negb ((2 <=? base) && (base <=? 36)) then (0, Some ErrSyntax)
  else if (bitSize <? 1) || (64 <? bitSize) then (0, Some ErrSyntax)
  else
    let cutoff := maxUint64 / base + 1 in
    let maxVal := 2 ^ bitSize - 1 in
    ParseUint_loop base maxVal cutoff (bytes s) 0.

(** [ParseInt(s, base, bitSize)]: an optional sign, then [ParseUint]; the
    magnitude must fit a signed integer of [bitSize] bits. *)
Definition ParseInt (s : string) (base bitSize : Z) : Z * option NumError :=
  match s with
  | EmptyString => (0, Some ErrSyntax)
  | String c0 rest =>
      let '(neg, s1) :=
        if Ascii.eqb c0 "+" then (false, rest)
        else if Ascii.eqb c0 "-" then (true, rest)
        else (false, s) in
      match ParseUint s1 base bitSize with
      | (_, Some ErrSyntax) => (0, Some ErrSyntax)
      | (un, _) =>
          let cutoff := 2 ^ (bitSize - 1) in
          if negb neg && (cutoff <=? un) then (cutoff - 1, Some ErrRange)
          else if neg && (cutoff <? un) then (- cutoff, Some ErrRange)
          else (if neg then - un else un, None)
      end
  end.

End strconv.

(** ** [net/netip]: parsed addresses *)

Module netip.

(** An [Addr] that a successful parse returns: an IPv4 address (a 32-bit
    value), or an IPv6 address (a 128-bit value, IPv4-mapped addresses
    included) with its zone, empty when there is none. *)
Inductive Addr :=
| IPv4 (v : Z)
| IPv6 (v : Z) (zone : string).

Definition BitLen (ip : Addr) : Z :=
  match ip with
  | IPv4 _ => 32
  | IPv6 _ _ => 128
  end.

Definition Zone (ip : Addr) : string :=
  match ip with
  | IPv4 _ => EmptyString
  | IPv6 _ zone => zone
  end.

(** The [n] low bytes of [v], most significant first. *)
Definition be_bytes (n : nat) (v : Z) : list Z :=
  map (fun i => Z.land (Z.shiftr v (8 * Z.of_nat (n - 1 - i))) 255) (seq 0 n).

(** [As16]: the 16-byte form; an IPv4 address is IPv4-mapped. *)
Definition As16 (ip : Addr) : list Z :=
  match ip with
  | IPv4 v => ([0; 0; 0; 0; 0; 0; 0; 0; 0; 0; 255; 255] ++ be_bytes 4 v)%list
  | IPv6 v _ => be_bytes 16 v
  end.

Definition AddrFrom4 (a b c d : Z) : Addr :=
  IPv4 (Z.lor (Z.shiftl (a mod 256) 24)
          (Z.lor (Z.shiftl (b mod 256) 16)
             (Z.lor (Z.shiftl (c mod 256) 8) (d mod 256)))).

(** [AddrFrom16] of eight 16-bit groups, first group most significant. *)
Definition AddrFrom16 (groups : list Z) : Addr :=
  IPv6 (fold_left (fun acc g => Z.lor (Z.shiftl acc 16) (g mod 65536))
                  groups 0) EmptyString.

End netip.

(** ** [net]: IP addresses, masks and CIDR notation *)

Module net.
Import GoString.

Definition IPv4len : Z := 4.
Definition IPv6len : Z := 16.

(** [IP] and [IPMask] are byte slices; the nil slice is [[]]. *)
Definition IP := list Z.
Definition IPMask := list Z.

Record IPNet := mkIPNet { IPNet_IP : IP; IPNet_Mask : IPMask }.

Definition v4InV6Prefix : list Z := [0; 0; 0; 0; 0; 0; 0; 0; 0; 0; 255; 255].

Definition isZeros (p : list Z) : bool := forallb (Z.eqb 0) p.

Definition allFF (b : list Z) : bool := forallb (Z.eqb 255) b.

Definition list_eqb (a b : list Z) : bool :=
  (length a =? length b)%nat && forallb (fun p => fst p =? snd p) (combine a b).

(** [ip.To4()]: the 4-byte form when the address has one, else nil
    ([None]). *)
Definition To4 (ip : IP) : option IP :=
  if Z.of_nat (length ip) =? IPv4len then Some ip
  else if (Z.of_nat (length ip) =? IPv6len)
          && isZeros (take 10 ip)
          && (nth 10 ip 0 =? 255)
          && (nth 11 ip 0 =? 255)
       then Some (take 4 (drop 12 ip))
       else None.

(** [ip.Mask(mask)]: the byte-wise AND, nil when the lengths differ. *)
Definition Mask (ip : IP) (mask : IPMask) : IP :=
  let mask :=
    if (Z.of_nat (length mask) =? IPv6len)
       && (Z.of_nat (length ip) =? IPv4len)
       && allFF (take 12 mask)
    then drop 12 mask else mask in
  let ip :=
    if (Z.of_nat (length mask) =? IPv4len)
       && (Z.of_nat (length ip) =? IPv6len)
       && list_eqb (take 12 ip) v4InV6Prefix
    then drop 12 ip else ip in
  if (length ip =? length mask)%nat
  then map (fun p => Z.land (fst p) (snd p)) (combine ip mask)
  else [].

(** The byte loop of [CIDRMask]: [l] bytes, [n] ones still to place. *)
Fixpoint CIDRMask_loop (l : nat) (n : Z) : IPMask :=
  match l with
  | O => []
  | S l' =>
      if 8 <=? n then 255 :: CIDRMask_loop l' (n - 8)
      else Z.lxor 255 (Z.shiftr 255 n) :: CIDRMask_loop l' 0
  end.

Definition CIDRMask (ones bits : Z) : IPMask :=
  if negb (bits =? 8 * IPv4len) && negb (bits =? 8 * IPv6len) then []
  else if (ones <? 0) || (bits <? ones) then []
  else CIDRMask_loop (Z.to_nat (bits / 8)) ones.

(** The inner loop of [simpleMaskLength]: count the leading one bits of a
    byte, shifting it left; what is left is returned with the count. *)
Fixpoint count_leading (fuel : nat) (v n : Z) : Z * Z :=
  match fuel with
  | O => (v, n)
  | S fuel' =>
      if Z.land v 128 =? 0 then (v, n)
      else count_leading fuel' (Z.shiftl v 1 mod 256) (n + 1)
  end.

(** [simpleMaskLength]: the number of leading ones of a mask made of ones
    followed by zeros, [-1] for any other mask. *)
Fixpoint simpleMaskLength_from (mask : IPMask) (n : Z) : Z :=
  match mask with
  | [] => n
  | v :: rest =>
      if v =? 255 then simpleMaskLength_from rest (n + 8)
      else
        let '(v', n') := count_leading 8 v n in
        if negb (v' =? 0) then -1
        else if forallb (Z.eqb 0) rest then n' else -1
  end.

Definition simpleMaskLength (mask : IPMask) : Z :=
  simpleMaskLength_from mask 0.

(** [m.Size()]: the pair [(ones, bits)]. *)
Definition Size (m : IPMask) : Z * Z :=
  let ones := simpleMaskLength m in
  let bits := Z.of_nat (length m) * 8 in
  if ones =? -1 then (0, 0) else (ones, bits).

Definition big : Z := 16777215.

(** [dtoi]: the decimal number at the start of [s]: its value, the number
    of bytes used and whether it is a number below [big]. *)
Fixpoint dtoi_loop (cs : list ascii) (n i : Z) : Z * Z * bool :=
  match cs with
  | c :: cs' =>
      if in_range "0" "9" c then
        let n' := n * 10 + (byte_of c - 48) in
        if big <=? n' then (big, i, false)
        else dtoi_loop cs' n' (i + 1)
      else if i =? 0 then (0, 0, false) else (n, i, true)
  | [] => if i =? 0 then (0, 0, false) else (n, i, true)
  end.

Definition dtoi (s : string) : Z * Z * bool := dtoi_loop (bytes s) 0 0.

(** [ParseCIDR]: the literal address and the network (masked address and
    mask).  [ParseAddr] is the text parser of [net/netip]. *)
Definition ParseCIDR (ParseAddr : string -> option netip.Addr) (s : string)
  : option (IP * IPNet) :=
  let '(addr, mask, found) := Cut "/" s in
  if negb found then None
  else
    match ParseAddr addr with
    | None => None
    | Some ipAddr =>
        if negb (String.eqb (netip.Zone ipAddr) EmptyString) then None
        else
          let '(n, i, ok) := dtoi mask in
          if negb ok || negb (i =? len mask) || (n <? 0)
             || (netip.BitLen ipAddr <? n)
          then None
          else
            let m := CIDRMask n (netip.BitLen ipAddr) in
            let addr16 := netip.As16 ipAddr in
            Some (addr16, mkIPNet (Mask addr16 m) m)
    end.

End net.

(** ** [net/url]: the query string *)

Module url.
Import GoString.

Record URL := mkURL { RawQuery : string }.

Definition ishex (c : ascii) : bool :=
  in_range "0" "9" c || in_range "a" "f" c || in_range "A" "F" c.

Definition unhex (c : ascii) : Z :=
  if in_range "0" "9" c then byte_of c - 48
  else if in_range "a" "f" c then byte_of c - 97 + 10
  else if in_range "A" "F" c then byte_of c - 65 + 10
  else 0.

(** [QueryUnescape]: [%XX] is the byte [XX], [+] is a space; a [%] not
    followed by two hex digits is an error ([None]). *)
Fixpoint QueryUnescape (s : string) : option string :=
  match s with
  | EmptyString => Some EmptyString
  | String c rest =>
      if Ascii.eqb c "%" then
        match rest with
        | String h1 (String h2 rest') =>
            if ishex h1 && ishex h2 then
              match QueryUnescape rest' with
              | Some t => Some (String (of_byte (Z.lor (Z.shiftl (unhex h1) 4) (unhex h2))) t)
              | None => None
              end
            else None
        | _ => None
        end
      else
        match QueryUnescape rest with
        | Some t => Some (String (if Ascii.eqb c "+" then " "%char else c) t)
        | None => None
        end
  end.

(** The [&]-separated pieces of the query, in order. *)
Definition pieces (s : string) : list string := split "&" s.

(** One round of the loop of [parseQuery]: the decoded pair of a piece,
    if the piece contributes one. *)
Definition pair_of (piece : string) : option (string * string) :=
  if Contains ";" piece then None
  else if String.eqb piece EmptyString then None
  else
    let '(key, value, _) := Cut "=" piece in
    match QueryUnescape key with
    | None => None
    | Some key' =>
        match QueryUnescape value with
        | None => None
        | Some value' => Some (key', value')
        end
    end.

(** [m[key] = append(m[key], value)]. *)
Definition add (m : gmap string (list string)) (kv : string * string)
  : gmap string (list string) :=
  <[fst kv := (default [] (m !! fst kv) ++ [snd kv])%list]> m.

(** One round of the loop of [parseQuery] on the values map. *)
Definition step (m : gmap string (list string)) (piece : string)
  : gmap string (list string) :=
  match pair_of piece with
  | Some kv => add m kv
  | None => m
  end.

Definition ParseQuery (query : string) : gmap string (list string) :=
  fold_left step (pieces query) ∅.

(** [u.Query()]: the parsed [RawQuery]; malformed pairs are dropped. *)
Definition Query (u : URL) : gmap string (list string) :=
  ParseQuery (RawQuery u).

End url.

(** ** [github.com/miekg/dns]: messages and records *)

Module dns.

Definition TypeOPT : Z := 41.
Definition EDNS0SUBNET : Z := 8.
Definition ClassINET : Z := 1.

Record RR_Header := mkRR_Header {
  Hdr_Name : string;
  Rrtype : Z;
  Class : Z;
  Ttl : Z;
  Rdlength : Z
}.

Record EDNS0_SUBNET := mkEDNS0_SUBNET {
  Code : Z;
  Family : Z;
  SourceNetmask : Z;
  SourceScope : Z;
  Address : net.IP
}.

(** The [RR] interface: an [OPT] record with its options, or a record of
    any other type, given by its header and by what its [String] method
    returns. *)
Inductive RR :=
| OPT (Hdr : RR_Header) (Option : list EDNS0_SUBNET)
| Record_ (Hdr : RR_Header) (text : string).

Definition Header (rr : RR) : RR_Header :=
  match rr with
  | OPT Hdr _ => Hdr
  | Record_ Hdr _ => Hdr
  end.

Record Question := mkQuestion { Name : string; Qtype : Z; Qclass : Z }.

Record Msg := mkMsg {
  Id : Z;
  Truncated : bool;
  RecursionDesired : bool;
  RecursionAvailable : bool;
  AuthenticatedData : bool;
  CheckingDisabled : bool;
  Rcode : Z;
  Questions : list Question;
  Answer : list RR;
  Extra : list RR
}.

(** The zero message [&dns.Msg{}]. *)
Definition Msg_zero : Msg :=
  mkMsg 0 false false false false false 0 [] [] [].

Definition set_CheckingDisabled (m : Msg) (cd : bool) : Msg :=
  mkMsg (Id m) (Truncated m) (RecursionDesired m) (RecursionAvailable m)
        (AuthenticatedData m) cd (Rcode m) (Questions m) (Answer m) (Extra m).

(** [m.SetQuestion(z, t)]; [id] is the fresh identifier [dns.Id()]. *)
Definition SetQuestion (id : Z) (m : Msg) (z : string) (t : Z) : Msg :=
  mkMsg id (Truncated m) true (RecursionAvailable m)
        (AuthenticatedData m) (CheckingDisabled m) (Rcode m)
        [mkQuestion z t ClassINET] (Answer m) (Extra m).

Definition set_Extra (m : Msg) (extra : list RR) : Msg :=
  mkMsg (Id m) (Truncated m) (RecursionDesired m) (RecursionAvailable m)
        (AuthenticatedData m) (CheckingDisabled m) (Rcode m) (Questions m)
        (Answer m) extra.

End dns.

(** ** [internal/dnsjson]: the JSON response *)

Module dnsjson.

(** Modelled from the spec: the record type [dnsjson.RR] (section 6:
    [{Name, Type, TTL, Data}]; a question entry leaves [TTL] and [Data] at
    their zero values). *)
Record RR := mkRR { Name : string; Type_ : Z; TTL : Z; Data : string }.

(** Modelled from the spec: the type [dnsjson.Response] (section 6:
    [Status], the five flags, [Question] and [Answer]). *)
Record Response := mkResponse {
  Status : Z;
  TC : bool;
  RD : bool;
  RA : bool;
  AD : bool;
  CD : bool;
  Question : list RR;
  Answer : list RR
}.

Definition add_Question (jr : Response) (rr : RR) : Response :=
  mkResponse (Status jr) (TC jr) (RD jr) (RA jr) (AD jr) (CD jr)
             (Question jr ++ [rr])%list (Answer jr).

Definition add_Answer (jr : Response) (rr : RR) : Response :=
  mkResponse (Status jr) (TC jr) (RD jr) (RA jr) (AD jr) (CD jr)
             (Question jr) (Answer jr ++ [rr])%list.

End dnsjson.

(** ** [net/http] status codes *)

Module http.
Definition StatusBadRequest : Z := 400.
Definition StatusRequestTimeout : Z := 408.
Definition StatusFailedDependency : Z := 424.
Definition StatusInternalServerError : Z := 500.

Record Request := mkRequest { RemoteAddr : string; URL : url.URL }.
End http.

(** ** What the handler takes from its libraries and from the network *)

(** The tables and functions of the libraries, and the upstream resolver,
    that [server.go] uses without defining them. *)
Record Lib := mkLib {
  (** [dns.StringToType]: the table from canonical type names to codes. *)
  StringToType : gmap string Z;
  (** [strings.Map(unicode.ToUpper, s)] and [strings.Map(unicode.ToLower, s)],
      the Unicode case tables, used for strings that are not pure ASCII. *)
  unicode_ToUpper : string -> string;
  unicode_ToLower : string -> string;
  (** [netip.ParseAddr]: the text parser of IP addresses. *)
  ParseAddr : string -> option netip.Addr;
  (** [dns.Fqdn]: the fully-qualified form of a name. *)
  Fqdn : string -> string;
  (** [dns.Id()]: the identifier of the next message. *)
  dns_Id : Z;
  (** [dns.Exchange(m, address)]: the reply and the error of one exchange
      with the upstream resolver; both may be nil. *)
  Exchange : dns.Msg -> string -> option dns.Msg * option error;
  (** The [String] methods of [RR_Header] and of [OPT]. *)
  Header_String : dns.RR_Header -> string;
  OPT_String : dns.RR_Header -> list dns.EDNS0_SUBNET -> string;
  (** [json.Marshal] on a [dnsjson.Response]. *)
  Marshal : dnsjson.Response -> res string;
  (** [util.TraceErrorf(tr, format, args...)]: the error it builds from the
      format and the texts of the arguments. *)
  TraceErrorf : string -> list string -> error
}.

(** ** The handler's effects *)

(** What a run of the handler does to the outside, in order. *)
Inductive Event :=
| EvExchange (r : dns.Msg) (upstream : string)
| EvError (msg : string) (code : Z)
| EvWrite (buf : string).

Inductive Outcome (A : Type) : Type :=
| Done (a : A) (w : list Event)
| Panicked (w : list Event).
Arguments Done {A} a w.
Arguments Panicked {A} w.

(** A computation of the handler: from the events so far to a result and
    the events after it, or to a panic. *)
Definition M (A : Type) : Type := list Event -> Outcome A.

Definition ret {A} (a : A) : M A := fun w => Done a w.

Definition bind {A B} (m : M A) (k : A -> M B) : M B :=
  fun w => match m w with
           | Done a w' => k a w'
           | Panicked w' => Panicked w'
           end.

Definition emit (e : Event) : M unit := fun w => Done tt (w ++ [e])%list.

Definition panic {A} : M A := fun w => Panicked w.

Declare Scope handler_scope.
Delimit Scope handler_scope with handler.
Notation "x <- m ;; k" := (bind m (fun x => k))
  (at level 100, m at next level, right associativity) : handler_scope.
Notation "m ;;; k" := (bind m (fun _ => k))
  (at level 100, right associativity) : handler_scope.

Definition events {A} (o : Outcome A) : list Event :=
  match o with
  | Done _ w => w
  | Panicked w => w
  end.

(** The exchanges attempted, the error replies sent and the bodies written
    in a run. *)
Definition exchanges (w : list Event) : list (dns.Msg * string) :=
  omap (fun e => match e with EvExchange r up => Some (r, up) | _ => None end) w.

Definition errors_sent (w : list Event) : list (string * Z) :=
  omap (fun e => match e with EvError msg code => Some (msg, code) | _ => None end) w.

Definition bodies_written (w : list Event) : list string :=
  omap (fun e => match e with EvWrite buf => Some buf | _ => None end) w.

(** ** [server.go] *)

Record Server := mkServer {
  Addr : string;
  Upstream : string;
  CertFile : string;
  KeyFile : string
}.

Record query := mkquery {
  name : string;
  rrType : Z;
  cd : bool;
  (** EDNS client subnet (address+mask). *)
  clientSubnet : option net.IPNet
}.

Definition errEmptyName : error := "empty name".
Definition errNameTooLong : error := "name too long".
Definition errInvalidSubnet : error := "invalid edns_client_subnet".
Definition errIntOutOfRange : error := "invalid type (int out of range)".
Definition errUnknownType : error := "invalid type (unknown string type)".
Definition errInvalidCD : error := "invalid cd value".

Section Server.
Context (L : Lib).
Import GoString.

(** [strings.ToUpper] and [strings.ToLower]: byte-wise on an ASCII
    string, through the Unicode tables otherwise. *)
Definition ToUpper (s : string) : string :=
  if isASCII s then map_bytes upper_byte s else unicode_ToUpper L s.

Definition ToLower (s : string) : string :=
  if isASCII s then map_bytes lower_byte s else unicode_ToLower L s.

Definition stringToBool (s : string) : res bool :=
  let l := ToLower s in
  if String.eqb l EmptyString || String.eqb l "1" || String.eqb l "true" then
    (* Note the empty string is intentionally considered true, as long as
       the parameter is present in the query. *)
    Ok true
  else if String.eqb l "0" || String.eqb l "false" then Ok false
  else Err errInvalidCD.

(** [stringToRRType] converts a string into a DNS type constant. *)
Definition stringToRRType (s : string) : res Z :=
  match strconv.ParseInt s 10 16 with
  | (i, None) =>
      if (1 <=? i) && (i <=? 65535) then Ok (i mod 65536)
      else Err errIntOutOfRange
  | (_, Some _) =>
      match StringToType L !! ToUpper s with
      | None => Err errUnknownType
      | Some rrType => Ok rrType
      end
  end.

(** Lines 186-194 of [parseQuery]: the values map made single-valued. *)
Definition simplify (values : gmap string (list string)) : gmap string string :=
  map_fold
    (fun k values vs =>
       match values with
       | v0 :: _ => <[k := v0]> vs
       | [] => <[k := EmptyString]> vs
       end)
    ∅ values.

(** [vs[k]]: the zero value for a missing key. *)
Definition index (vs : gmap string string) (k : string) : string :=
  default EmptyString (vs !! k).

(** [v, ok = vs[k]]: the value and whether the key is present. *)
Definition index_ok (vs : gmap string string) (k : string) : string * bool :=
  match vs !! k with
  | Some v => (v, true)
  | None => (EmptyString, false)
  end.

Definition parseQuery (u : url.URL) : res query :=
  let vs := simplify (url.Query u) in
  let '(name, ok) := index_ok vs "name" in
  if negb ok || String.eqb name EmptyString then Err errEmptyName
  else if 253 <? len name then Err errNameTooLong
  else
    match
      (match vs !! "type" with
       | Some _ => stringToRRType (index vs "type")
       | None => Ok 1
       end)
    with
    | Err err => Err err
    | Ok rrType =>
        match
          (match vs !! "cd" with
           | Some cd => stringToBool cd
           | None => Ok false
           end)
        with
        | Err err => Err err
        | Ok cd =>
            match vs !! "edns_client_subnet" with
            | Some clientSubnet =>
                match net.ParseCIDR (ParseAddr L) clientSubnet with
                | None => Err errInvalidSubnet
                | Some (_, ipnet) => Ok (mkquery name rrType cd (Some ipnet))
                end
            | None => Ok (mkquery name rrType cd None)
            end
        end
    end.

(** Lines 76-93 of [Resolve]: the OPT record made for a client subnet. *)
Definition subnet_OPT (clientSubnet : net.IPNet) : dns.RR :=
  let Hdr := dns.mkRR_Header "." dns.TypeOPT 0 0 0 in
  let '(Family, Address) :=
    match net.To4 (net.IPNet_IP clientSubnet) with
    | Some ipv4 => (1, ipv4) (* IPv4 source address *)
    | None => (2, net.IPNet_IP clientSubnet) (* IPv6 source address *)
    end in
  let SourceScope := 0 in
  let '(_, maskSize) := net.Size (net.IPNet_Mask clientSubnet) in
  let SourceNetmask := maskSize mod 256 in
  let e := dns.mkEDNS0_SUBNET dns.EDNS0SUBNET Family SourceNetmask SourceScope
                              Address in
  dns.OPT Hdr ([] ++ [e])%list.

(** Lines 71-95 of [Resolve]: the DNS request of a parsed query. *)
Definition request_of (q : query) : dns.Msg :=
  let r := dns.Msg_zero in
  let r := dns.set_CheckingDisabled r (cd q) in
  let r := dns.SetQuestion (dns_Id L) r (Fqdn L (name q)) (rrType q) in
  match clientSubnet q with
  | Some subnet => dns.set_Extra r (dns.Extra r ++ [subnet_OPT subnet])%list
  | None => r
  end.

Definition RR_String (a : dns.RR) : string :=
  match a with
  | dns.OPT Hdr Option => OPT_String L Hdr Option
  | dns.Record_ _ text => text
  end.

(** Lines 125-131 of [Resolve]: the loop over the question section. *)
Definition question_loop (qs : list dns.Question) (jr : dnsjson.Response)
  : dnsjson.Response :=
  fold_left
    (fun jr q =>
       let rr := dnsjson.mkRR (dns.Name q) (dns.Qtype q) 0 EmptyString in
       dnsjson.add_Question jr rr)
    qs jr.

(** Lines 133-144 of [Resolve]: the loop over the answer section; slicing
    the rendering beyond its end panics. *)
Fixpoint answer_loop (answers : list dns.RR) (jr : dnsjson.Response)
  : option dnsjson.Response :=
  match answers with
  | [] => Some jr
  | a :: rest =>
      let hdr := dns.Header a in
      let hs := Header_String L hdr in
      match slice_from (RR_String a) (String.length hs) with
      | None => None
      | Some data =>
          let ja := dnsjson.mkRR (dns.Hdr_Name hdr) (dns.Rrtype hdr)
                                 (dns.Ttl hdr) data in
          answer_loop rest (dnsjson.add_Answer jr ja)
      end
  end.

(** Lines 116-144 of [Resolve]: the reply converted for JSON. *)
Definition response_of (fromUp : dns.Msg) : option dnsjson.Response :=
  let jr := dnsjson.mkResponse (dns.Rcode fromUp) (dns.Truncated fromUp)
              (dns.RecursionDesired fromUp) (dns.RecursionAvailable fromUp)
              (dns.AuthenticatedData fromUp) (dns.CheckingDisabled fromUp)
              [] [] in
  let jr := question_loop (dns.Questions fromUp) jr in
  answer_loop (dns.Answer fromUp) jr.

Definition http_Error (msg : string) (code : Z) : M unit :=
  emit (EvError msg code).

Definition w_Write (buf : string) : M unit := emit (EvWrite buf).

Definition dns_Exchange (r : dns.Msg) (upstream : string)
  : M (option dns.Msg * option error) :=
  (emit (EvExchange r upstream) ;;; ret (Exchange L r upstream))%handler.

(** [Resolve] "DNS over HTTPS" requests. *)
Definition Resolve (s : Server) (req : http.Request) : M unit :=
  (* Construct the DNS request from the http query. *)
  match parseQuery (http.URL req) with
  | Err err => http_Error err http.StatusBadRequest
  | Ok q =>
      let r := request_of q in
      (* Do the DNS request, get the reply. *)
      (reply <- dns_Exchange r (Upstream s) ;;
       let '(fromUp, err) := reply in
       match err with
       | Some err =>
           let err := TraceErrorf L "dns exchange error: %v" [err] in
           http_Error err http.StatusFailedDependency
       | None =>
           match fromUp with
           | None =>
               let err := TraceErrorf L "no response from upstream" [] in
               http_Error err http.StatusRequestTimeout
           | Some fromUp =>
               (* Convert the reply to json, and write it back. *)
               match response_of fromUp with
               | None => panic
               | Some jr =>
                   match Marshal L jr with
                   | Err err =>
                       let err := TraceErrorf L "failed to marshal: %v" [err] in
                       http_Error err http.StatusInternalServerError
                   | Ok buf => w_Write buf
                   end
               end
           end
       end)%handler
  end.

End Server.

(** ** A stub library and upstream, to run the handler *)

Module Stub.
Import GoString.

(** The first entries of the type table. *)
Definition StringToType : gmap string Z :=
  list_to_map
    [("A", 1); ("NS", 2); ("CNAME", 5); ("SOA", 6); ("PTR", 12); ("MX", 15);
     ("TXT", 16); ("AAAA", 28); ("SRV", 33); ("ANY", 255)].

(** A decimal field of a dotted quad. *)
Definition octet (f : string) : option Z :=
  let '(n, i, ok) := net.dtoi f in
  let leading_zero :=
    match f with
    | String c (String _ _) => Ascii.eqb c "0"
    | _ => false
    end in
  if ok && (i =? len f) && (n <=? 255) && negb leading_zero then Some n
  else None.

(** A hexadecimal group of an IPv6 address. *)
Definition group (f : string) : option Z :=
  match strconv.ParseUint f 16 16 with
  | (n, None) => if len f <=? 4 then Some n else None
  | _ => None
  end.

(** Dotted quads, and IPv6 addresses written as eight groups. *)
Definition ParseAddr (s : string) : option netip.Addr :=
  match mapM octet (split "." s) with
  | Some [a; b; c; d] => Some (netip.AddrFrom4 a b c d)
  | _ =>
      match mapM group (split ":" s) with
      | Some groups =>
          if (length groups =? 8)%nat then Some (netip.AddrFrom16 groups)
          else None
      | None => None
      end
  end.

Definition Fqdn (s : string) : string :=
  match rev (bytes s) with
  | c :: _ => if Ascii.eqb c "." then s else s +:+ "."
  | [] => "."
  end.

Definition tab : string := String (ascii_of_nat 9) EmptyString.

Definition Header_String (h : dns.RR_Header) : string :=
  dns.Hdr_Name h +:+ tab +:+ pretty (dns.Ttl h) +:+ tab +:+ "IN" +:+ tab
    +:+ pretty (dns.Rrtype h) +:+ tab.

(** An upstream that answers every question with one address record;
    the server ["down"] fails, ["silent"] returns nothing and ["empty"]
    returns an empty message. *)
Definition Exchange (r : dns.Msg) (upstream : string)
  : option dns.Msg * option error :=
  if String.eqb upstream "down" then (None, Some "connection refused")
  else if String.eqb upstream "silent" then (None, None)
  else if String.eqb upstream "empty" then (Some dns.Msg_zero, None)
  else
    let answers :=
      map (fun q =>
             let h := dns.mkRR_Header (dns.Name q) 1 1 300 4 in
             dns.Record_ h (Header_String h +:+ "192.0.2.1"))
          (dns.Questions r) in
    (Some (dns.mkMsg (dns.Id r) false true true false (dns.CheckingDisabled r)
                     0 (dns.Questions r) answers []),
     None).

(** A serializer that fails on an empty question section. *)
Definition Marshal (jr : dnsjson.Response) : res string :=
  match dnsjson.Question jr with
  | [] => Err "no question"
  | _ => Ok (String.concat ";" (map dnsjson.Data (dnsjson.Answer jr)))
  end.

(** The format with each [%v] replaced by the next argument. *)
Fixpoint TraceErrorf (format : string) (args : list string) : error :=
  match format with
  | EmptyString => EmptyString
  | String c rest =>
      match rest with
      | String d rest' =>
          if Ascii.eqb c "%" && Ascii.eqb d "v" then
            match args with
            | a :: args' => a +:+ TraceErrorf rest' args'
            | [] => "%v" +:+ TraceErrorf rest' []
            end
          else String c (TraceErrorf rest args)
      | EmptyString => String c EmptyString
      end
  end.

Definition OPT_String (h : dns.RR_Header) (o : list dns.EDNS0_SUBNET) : string :=
  ";" +:+ Header_String h.

Definition lib : Lib :=
  mkLib StringToType (fun s => s) (fun s => s) ParseAddr Fqdn 4242 Exchange
        Header_String OPT_String Marshal TraceErrorf.
End Stub.

(** ** Vocabulary of the statements *)


(** The prefix length written after the slash of a CIDR string. *)
Definition cidr_prefix (s : string) : Z :=
  let '(_, mask, _) := GoString.Cut "/" s in
  let '(n, _, _) := net.dtoi mask in
  n.

(** [P] on the [fuel] integers from [n] on. *)
Fixpoint all_from (fuel : nat) (n : Z) (P : Z -> bool) : bool :=
  match fuel with
  | O => true
  | S fuel' => P n && all_from fuel' (n + 1) P
  end.

(** The decimal text of an integer, as [strconv.Itoa] writes it. *)
Definition Itoa (n : Z) : string := NilZero.string_of_int (Z.to_int n).

(** The options of an [OPT] record. *)
Definition Options (rr : dns.RR) : list dns.EDNS0_SUBNET :=
  match rr with
  | dns.OPT _ Option => Option
  | dns.Record_ _ _ => []
  end.

(** The checks made over ranges of integers. *)
Definition Size_ok (bits n : Z) : bool :=
  let '(ones, b) := net.Size (net.CIDRMask n bits) in
  (ones =? n) && (b =? bits).


(** The number written by the digits [d] after the digits of [acc]. *)
Fixpoint digits_after (acc : Z) (d : Decimal.uint) : Z :=
  match d with
  | Decimal.Nil => acc
  | Decimal.D0 d' => digits_after (10 * acc + 0) d'
  | Decimal.D1 d' => digits_after (10 * acc + 1) d'
  | Decimal.D2 d' => digits_after (10 * acc + 2) d'
  | Decimal.D3 d' => digits_after (10 * acc + 3) d'
  | Decimal.D4 d' => digits_after (10 * acc + 4) d'
  | Decimal.D5 d' => digits_after (10 * acc + 5) d'
  | Decimal.D6 d' => digits_after (10 * acc + 6) d'
  | Decimal.D7 d' => digits_after (10 * acc + 7) d'
  | Decimal.D8 d' => digits_after (10 * acc + 8) d'
  | Decimal.D9 d' => digits_after (10 * acc + 9) d'
  end.

(** A name of [n] bytes. *)
Definition name_of_length (n : nat) : string :=
  GoString.of_bytes (repeat "a"%char n).

(** The decoded pairs of a raw query, in the order they are written. *)
Definition decoded_pairs (raw : string) : list (string * string) :=
  omap url.pair_of (url.pieces raw).

(** The values given to a key in a list of pairs, in order. *)
Definition values_of (k : string) (pairs : list (string * string)) : list string :=
  map snd (filter (fun kv : string * string => fst kv = k) pairs).

(** The first value of a list of values, the empty string for the empty
    list. *)
Definition first_value (values : list string) : string :=
  match values with
  | v0 :: _ => v0
  | [] => EmptyString
  end.

(** A request and a server for the stub upstream. *)
Definition Stub_request (raw : string) : http.Request :=
  http.mkRequest "192.0.2.7:4711" (url.mkURL raw).

Definition Stub_server (upstream : string) : Server :=
  mkServer ":443" upstream "cert.pem" "key.pem".

(** The question entry of a question. *)
Definition question_of (q : dns.Question) : dnsjson.RR :=
  dnsjson.mkRR (dns.Name q) (dns.Qtype q) 0 EmptyString.



(** The reply of the stub upstream to a question for [example.com]. *)
Definition Stub_reply : dns.Msg :=
  dns.mkMsg 4242 false true true false false 0
    [dns.mkQuestion "example.com." 1 1]
    [dns.Record_ (dns.mkRR_Header "example.com." 1 1 300 4)
       (Stub.Header_String (dns.mkRR_Header "example.com." 1 1 300 4)
          +:+ "192.0.2.1")]
    [].

(** ** Vocabulary of the further statements *)

(** The keys that [parseQuery] reads. *)
Definition recognised : list string :=
  ["name"; "type"; "cd"; "edns_client_subnet"].

(** A name that passes the two checks of [parseQuery] on it. *)
Definition name_accepted (vs : gmap string string) (n : string) : Prop :=
  vs !! "name" = Some n /\ 1 <= GoString.len n <= 253.

(** What [parseQuery] resolves the keys [type] and [cd] to: the default
    when the key is absent, the resolution of its value otherwise. *)
Definition type_of (L : Lib) (vs : gmap string string) : res Z :=
  match vs !! "type" with
  | Some t => stringToRRType L t
  | None => Ok 1
  end.

Definition cd_of (L : Lib) (vs : gmap string string) : res bool :=
  match vs !! "cd" with
  | Some v => stringToBool L v
  | None => Ok false
  end.

(** The network of the key [edns_client_subnet]: none when the key is
    absent, [None] as a whole when its value is not accepted. *)
Definition subnet_of (L : Lib) (vs : gmap string string)
  : option (option net.IPNet) :=
  match vs !! "edns_client_subnet" with
  | Some c =>
      match net.ParseCIDR (ParseAddr L) c with
      | Some (_, ipnet) => Some (Some ipnet)
      | None => None
      end
  | None => Some None
  end.

(** [k] times the digit 0 in front of a text. *)
Fixpoint leading_zeros (k : nat) (s : string) : string :=
  match k with
  | O => s
  | S k' => String "0" (leading_zeros k' s)
  end.

(** An answer whose rendering is shorter than the rendering of its
    header. *)
Definition too_short (L : Lib) (a : dns.RR) : Prop :=
  (String.length (RR_String L a)
   < String.length (Header_String L (dns.Header a)))%nat.

(** An answer and its JSON record when nothing is known of the rendering
    but its length: the data is what follows the first bytes of the
    rendering, as many as the header text has. *)
Definition answer_cut (L : Lib) (a : dns.RR) (ja : dnsjson.RR) : Prop :=
  dnsjson.Name ja = dns.Hdr_Name (dns.Header a)
  /\ dnsjson.Type_ ja = dns.Rrtype (dns.Header a)
  /\ dnsjson.TTL ja = dns.Ttl (dns.Header a)
  /\ exists front,
       RR_String L a = front +:+ dnsjson.Data ja
       /\ String.length front = String.length (Header_String L (dns.Header a)).

(** The last event of a run is the answer to the client. *)
Definition is_answer (e : Event) : Prop :=
  match e with
  | EvExchange _ _ => False
  | EvError _ code =>
      code = http.StatusFailedDependency \/ code = http.StatusRequestTimeout
      \/ code = http.StatusInternalServerError
  | EvWrite _ => True
  end.

(** The address part of a CIDR string, before the slash. *)
Definition cidr_address (s : string) : string :=
  let '(addr, _, _) := GoString.Cut "/" s in
  addr.

(** The texts of the six errors of [parseQuery]. *)
Definition validation_errors : list error :=
  [errEmptyName; errNameTooLong; errIntOutOfRange; errUnknownType;
   errInvalidCD; errInvalidSubnet].

(** A stub library whose header text is three bytes whatever the header,
    and an upstream for it whose answers are rendered by the text given. *)
Definition Stub_fixed_header (text : string) : Lib :=
  mkLib Stub.StringToType (fun s => s) (fun s => s) Stub.ParseAddr Stub.Fqdn
        4242
        (fun r _ =>
           (Some (dns.mkMsg (dns.Id r) false true true false false 0
                    (dns.Questions r)
                    [dns.Record_ (dns.mkRR_Header "a.example." 1 1 60 4) text]
                    []),
            None))
        (fun _ => "hdr") Stub.OPT_String Stub.Marshal Stub.TraceErrorf.

(** The characters of a UTF-8 text, as [utf8.RuneCountInString] counts
    them in a valid text: the bytes that do not continue a character
    (those from 128 to 191 do). *)
Definition characters (s : string) : Z :=
  Z.of_nat
    (length
       (List.filter
          (fun c => negb ((128 <=? GoString.byte_of c)
                          && (GoString.byte_of c <=? 191)))
          (GoString.bytes s))).

(** A name of 252 letters and one letter of two bytes (U+00E9), and the
    query string that gives it. *)
Definition name_of_253_characters : string :=
  name_of_length 252
    +:+ String (ascii_of_nat 195) (String (ascii_of_nat 169) EmptyString).

Definition query_of_253_characters : string :=
  "name=" +:+ name_of_length 252 +:+ "%C3%A9".


(** * Properties *)

(** ** Checks over a bounded range of integers *)

Lemma all_from_spec (fuel : nat) (lo : Z) (P : Z -> bool) :
  all_from fuel lo P = true ->
  forall n, lo <= n < lo + Z.of_nat fuel -> P n = true.
Proof.
  revert lo. induction fuel as [| fuel IH]; intros lo H n Hn; [lia |].
  simpl in H. apply andb_prop in H as [Hlo Hrest].
  destruct (Z.eq_dec n lo) as [-> | Hne]; [exact Hlo |].
  apply (IH (lo + 1) Hrest). lia.
Qed.

(** ** Masks *)

Section Masks.

Lemma CIDRMask_Size bits n :
  bits = 32 \/ bits = 128 -> 0 <= n <= bits ->
  net.Size (net.CIDRMask n bits) = (n, bits).
Proof.
  intros Hb Hn.
  assert (Size_ok bits n = true) as H.
  { destruct Hb; subst bits.
    - apply (all_from_spec 33 0); [vm_compute; reflexivity | lia].
    - apply (all_from_spec 129 0); [vm_compute; reflexivity | lia]. }
  unfold Size_ok in H. destruct (net.Size _) as [ones b].
  apply andb_prop in H as [H1 H2]. f_equal; lia.
Qed.


Lemma CIDRMask_loop_length l n : length (net.CIDRMask_loop l n) = l.
Proof.
  revert n. induction l as [| l IH]; intros n; simpl; [reflexivity |].
  destruct (8 <=? n); simpl; now rewrite IH.
Qed.

Lemma CIDRMask_length bits n :
  bits = 32 \/ bits = 128 -> 0 <= n <= bits ->
  Z.of_nat (length (net.CIDRMask n bits)) * 8 = bits.
Proof.
  intros Hb Hn. pose proof (CIDRMask_Size bits n Hb Hn) as H.
  unfold net.Size in H. destruct (_ =? -1); injection H as H1 H2; lia.
Qed.

Lemma be_bytes_length n v : length (netip.be_bytes n v) = n.
Proof. unfold netip.be_bytes. now rewrite length_map, length_seq. Qed.



(** Masking with a mask as long as the address. *)
Lemma Mask_same_length (ip m : list Z) :
  length ip = length m ->
  net.Mask ip m = map (fun p => Z.land (fst p) (snd p)) (combine ip m).
Proof.
  intros Hlen. unfold net.Mask, net.IPv4len, net.IPv6len. rewrite Hlen.
  destruct (Z.eqb_spec (Z.of_nat (length m)) 16) as [H16 | H16];
    destruct (Z.eqb_spec (Z.of_nat (length m)) 4) as [H4 | H4];
    try lia; simpl; rewrite ?Hlen, ?Nat.eqb_refl; try reflexivity.
  all: destruct (Z.eqb_spec (Z.of_nat (length m)) 4); try lia;
    destruct (Z.eqb_spec (Z.of_nat (length m)) 16); try lia;
    simpl; rewrite ?Hlen, ?Nat.eqb_refl; reflexivity.
Qed.

(** Masking an IPv4-mapped address with a 4-byte mask. *)
Lemma Mask_v4 (b m : list Z) :
  length b = 4%nat -> length m = 4%nat ->
  net.Mask ([0; 0; 0; 0; 0; 0; 0; 0; 0; 0; 255; 255] ++ b)%list m
  = map (fun p => Z.land (fst p) (snd p)) (combine b m).
Proof.
  intros Hb Hm.
  destruct b as [| b0 [| b1 [| b2 [| b3 [| ? ?]]]]]; try discriminate.
  destruct m as [| m0 [| m1 [| m2 [| m3 [| ? ?]]]]]; try discriminate.
  reflexivity.
Qed.

End Masks.

(** ** CIDR notation *)

Section CIDR.
Variable ParseAddr : string -> option netip.Addr.

(** What an accepted CIDR string is parsed to. *)
Lemma ParseCIDR_inv (s : string) (lit : net.IP) (ipnet : net.IPNet) :
  net.ParseCIDR ParseAddr s = Some (lit, ipnet) ->
  exists a : netip.Addr,
    0 <= cidr_prefix s <= netip.BitLen a
    /\ lit = netip.As16 a
    /\ ipnet = net.mkIPNet
                 (net.Mask (netip.As16 a)
                           (net.CIDRMask (cidr_prefix s) (netip.BitLen a)))
                 (net.CIDRMask (cidr_prefix s) (netip.BitLen a)).
Proof.
  unfold net.ParseCIDR, cidr_prefix.
  destruct (GoString.Cut "/" s) as [[addr mask] found].
  destruct found; simpl; [| discriminate].
  destruct (ParseAddr addr) as [a |]; [| discriminate].
  destruct (negb (String.eqb (netip.Zone a) EmptyString)); [discriminate |].
  destruct (net.dtoi mask) as [[n i] ok].
  destruct (negb ok || negb (i =? GoString.len mask) || (n <? 0)
            || (netip.BitLen a <? n)) eqn:E; [discriminate |].
  intros H. injection H as <- <-.
  apply orb_false_elim in E as [E Hhi].
  apply orb_false_elim in E as [_ Hlo].
  exists a. repeat split; lia.
Qed.

Lemma BitLen_cases (a : netip.Addr) :
  netip.BitLen a = 32 \/ netip.BitLen a = 128.
Proof. destruct a; [left | right]; reflexivity. Qed.

(** The network of an accepted CIDR string: the mask has the width of
    the address, and the address is the literal one under the mask. *)
Lemma ParseCIDR_network (s : string) (lit : net.IP) (ipnet : net.IPNet) :
  net.ParseCIDR ParseAddr s = Some (lit, ipnet) ->
  exists bits : Z,
    (bits = 32 \/ bits = 128)
    /\ 0 <= cidr_prefix s <= bits
    /\ length lit = 16%nat
    /\ net.IPNet_Mask ipnet = net.CIDRMask (cidr_prefix s) bits
    /\ Z.of_nat (length (net.IPNet_Mask ipnet)) * 8 = bits
    /\ net.IPNet_IP ipnet
       = map (fun p => Z.land (fst p) (snd p))
             (combine (drop (Z.to_nat (16 - bits / 8)) lit)
                      (net.IPNet_Mask ipnet)).
Proof.
  intros H. apply ParseCIDR_inv in H as (a & Hn & -> & ->).
  exists (netip.BitLen a). pose proof (BitLen_cases a) as Hb.
  pose proof (CIDRMask_length _ _ Hb Hn) as Hlen.
  split; [exact Hb |]. split; [exact Hn |]. simpl.
  split; [destruct a; simpl; now rewrite ?be_bytes_length |].
  split; [reflexivity |]. split; [exact Hlen |].
  destruct a as [v | v zone]; simpl in *.
  - apply Mask_v4; [apply be_bytes_length | lia].
  - apply Mask_same_length. rewrite be_bytes_length. lia.
Qed.

End CIDR.

(** ** The client-subnet option *)



(** C1 (the code does otherwise).  For every CIDR string that
    [net.ParseCIDR] accepts, the source netmask of the client-subnet option
    is the second result of [Mask.Size()], the width in bits of the
    address (32 or 128), and not the first, the prefix length written in
    the string. *)
Theorem C1_source_netmask_is_address_width
  (L : Lib) (s : string) (lit : net.IP) (ipnet : net.IPNet) :
  net.ParseCIDR (ParseAddr L) s = Some (lit, ipnet) ->
  let '(ones, bits) := net.Size (net.IPNet_Mask ipnet) in
  ones = cidr_prefix s
  /\ (bits = 32 \/ bits = 128)
  /\ map dns.SourceNetmask (Options (subnet_OPT ipnet)) = [bits].
Proof.
  intros H. apply ParseCIDR_network in H as (bits & Hb & Hn & _ & Hm & _ & _).
  unfold subnet_OPT. rewrite Hm, (CIDRMask_Size bits _ Hb Hn).
  split; [reflexivity |]. split; [exact Hb |].
  destruct (net.To4 (net.IPNet_IP ipnet)); simpl;
    destruct Hb as [-> | ->]; reflexivity.
Qed.

(** The subnet [1.2.3.0/24] is sent with source netmask 32. *)
Lemma C1_source_netmask_of_1_2_3_0_24 :
  24 = cidr_prefix "1.2.3.0/24"
  /\ (32 = 32 \/ 32 = 128)
  /\ map dns.SourceNetmask
         (Options (subnet_OPT (net.mkIPNet [1; 2; 3; 0] [255; 255; 255; 0])))
     = [32].
Proof.
  exact (C1_source_netmask_is_address_width Stub.lib "1.2.3.0/24"
           [0; 0; 0; 0; 0; 0; 0; 0; 0; 0; 255; 255; 1; 2; 3; 0]
           (net.mkIPNet [1; 2; 3; 0] [255; 255; 255; 0]) eq_refl).
Defined.

(** C5.  A request built from a query with a client subnet carries exactly
    one OPT record with exactly one client-subnet option; its family is 1
    when the address of the subnet has a 4-byte form and 2 otherwise, and
    its scope netmask is 0.  Without a client subnet nothing is attached. *)
Theorem C5_one_subnet_option_family_and_scope (L : Lib) (q : query) :
  match clientSubnet q with
  | Some ipnet =>
      exists (Hdr : dns.RR_Header) (e : dns.EDNS0_SUBNET),
        dns.Extra (request_of L q) = [dns.OPT Hdr [e]]
        /\ dns.Code e = dns.EDNS0SUBNET
        /\ dns.Family e = match net.To4 (net.IPNet_IP ipnet) with
                          | Some _ => 1
                          | None => 2
                          end
        /\ dns.SourceScope e = 0
  | None => dns.Extra (request_of L q) = []
  end.
Proof.
  unfold request_of. destruct (clientSubnet q) as [ipnet |]; [| reflexivity].
  unfold subnet_OPT.
  destruct (net.To4 (net.IPNet_IP ipnet)) as [ipv4 |];
    destruct (net.Size (net.IPNet_Mask ipnet)) as [ones maskSize];
    simpl; eexists _, _; repeat split.
Qed.



(** ** Decimal texts *)

Section Decimal.

Lemma digits_after_acc (d : Decimal.uint) (acc : positive) :
  digits_after (Z.pos acc) d = Z.pos (Pos.of_uint_acc d acc).
Proof.
  revert acc. induction d as [| d IH | d IH | d IH | d IH | d IH | d IH
                              | d IH | d IH | d IH | d IH];
    intros acc; simpl; [reflexivity | ..];
    rewrite <- IH; f_equal; lia.
Qed.

Lemma digits_after_0 (d : Decimal.uint) :
  digits_after 0 d = Z.of_N (Pos.of_uint d).
Proof.
  induction d as [| d IH | d IH | d IH | d IH | d IH | d IH
                  | d IH | d IH | d IH | d IH];
    simpl; [reflexivity | exact IH | ..];
    apply (digits_after_acc d).
Qed.

Lemma digits_after_ge (d : Decimal.uint) (acc : Z) :
  0 <= acc -> acc <= digits_after acc d.
Proof.
  revert acc. induction d as [| d IH | d IH | d IH | d IH | d IH | d IH
                              | d IH | d IH | d IH | d IH];
    intros acc Hacc; simpl; [lia | ..];
    (etransitivity; [| apply IH]; lia).
Qed.

Lemma digits_of_pos (p : positive) : digits_after 0 (Pos.to_uint p) = Z.pos p.
Proof. now rewrite digits_after_0, Unsigned.of_to. Qed.

(** One round of the loop of [ParseUint] on a decimal digit. *)
Lemma ParseUint_loop_digit (c : ascii) (k : Z) (cs : list ascii) (acc : Z) :
  GoString.byte_of c = 48 + k -> 0 <= k <= 9 -> 0 <= acc <= 65535 ->
  strconv.ParseUint_loop 10 65535 (strconv.maxUint64 / 10 + 1) (c :: cs) acc
  = if 65535 <? 10 * acc + k then (65535, Some strconv.ErrRange)
    else strconv.ParseUint_loop 10 65535 (strconv.maxUint64 / 10 + 1) cs
                                (10 * acc + k).
Proof.
  intros Hc Hk Hacc. cbn [strconv.ParseUint_loop]. rewrite Hc.
  replace ((48 <=? 48 + k) && (48 + k <=? 57)) with true
    by (symmetry; apply andb_true_intro; split; lia).
  replace (48 + k - 48) with k by lia.
  replace (10 <=? k) with false by (symmetry; apply Z.leb_gt; lia).
  change (strconv.maxUint64 / 10 + 1) with 1844674407370955162.
  replace (1844674407370955162 <=? acc) with false
    by (symmetry; apply Z.leb_gt; lia).
  change (2 ^ 64) with 18446744073709551616.
  rewrite Z.mod_small by lia.
  replace (acc * 10 + k <? acc * 10) with false
    by (symmetry; apply Z.ltb_ge; lia).
  replace (acc * 10 + k) with (10 * acc + k) by lia. reflexivity.
Qed.

Lemma ParseUint_loop_decimal (d : Decimal.uint) (acc : Z) :
  0 <= acc <= 65535 ->
  strconv.ParseUint_loop 10 65535 (strconv.maxUint64 / 10 + 1)
    (GoString.bytes (NilEmpty.string_of_uint d)) acc
  = if 65535 <? digits_after acc d then (65535, Some strconv.ErrRange)
    else (digits_after acc d, None).
Proof.
  revert acc. induction d as [| d IH | d IH | d IH | d IH | d IH | d IH
                              | d IH | d IH | d IH | d IH];
    intros acc Hacc.
  { simpl. now replace (65535 <? acc) with false
      by (symmetry; apply Z.ltb_ge; lia). }
  all: cbn [NilEmpty.string_of_uint GoString.bytes list_ascii_of_string
            digits_after];
    match goal with
    | IH' : forall a, _ -> _ = _
      |- context [digits_after (10 * ?a + ?k) ?d'] =>
        rewrite (ParseUint_loop_digit _ k) by (reflexivity || lia);
        destruct (Z.ltb_spec 65535 (10 * a + k)) as [Hbig | Hsmall];
        [ pose proof (digits_after_ge d' (10 * a + k) ltac:(lia));
          now replace (65535 <? digits_after (10 * a + k) d') with true
            by (symmetry; apply Z.ltb_lt; lia)
        | apply IH'; lia ]
    end.
Qed.

(** [ParseInt] for 16 bits on a text without sign. *)
Lemma ParseInt_unsigned (c : ascii) (rest : string) :
  Ascii.eqb c "+" = false -> Ascii.eqb c "-" = false ->
  strconv.ParseInt (String c rest) 10 16
  = match strconv.ParseUint_loop 10 65535 (strconv.maxUint64 / 10 + 1)
            (GoString.bytes (String c rest)) 0 with
    | (_, Some strconv.ErrSyntax) => (0, Some strconv.ErrSyntax)
    | (un, _) =>
        if 32768 <=? un then (32767, Some strconv.ErrRange) else (un, None)
    end.
Proof.
  intros Hplus Hminus. unfold strconv.ParseInt. rewrite Hplus, Hminus.
  reflexivity.
Qed.

Lemma decimal_first_digit (d : Decimal.uint) :
  d <> Decimal.Nil ->
  exists c rest,
    NilEmpty.string_of_uint d = String c rest
    /\ Ascii.eqb c "+" = false /\ Ascii.eqb c "-" = false.
Proof.
  intros Hd. destruct d; [congruence | ..];
    eexists _, _; repeat split; reflexivity.
Qed.

(** [ParseInt] on the decimal text of a positive number. *)
Lemma ParseInt_decimal (n : Z) :
  0 < n ->
  strconv.ParseInt (Itoa n) 10 16
  = if n <? 32768 then (n, None) else (32767, Some strconv.ErrRange).
Proof.
  intros Hn. destruct n as [| p |]; try lia.
  unfold Itoa. simpl Z.to_int. unfold NilZero.string_of_int,
    NilZero.string_of_uint.
  pose proof (Unsigned.to_uint_nonnil p) as Hnil.
  pose proof (digits_of_pos p) as Hval.
  pose proof (ParseUint_loop_decimal (Pos.to_uint p) 0 ltac:(lia)) as Hloop.
  rewrite Hval in Hloop.
  destruct (decimal_first_digit _ Hnil) as (c & rest & Hs & Hplus & Hminus).
  replace (match Pos.to_uint p with
           | Decimal.Nil => "0"
           | _ => NilEmpty.string_of_uint (Pos.to_uint p)
           end) with (NilEmpty.string_of_uint (Pos.to_uint p))
    by (destruct (Pos.to_uint p); congruence).
  rewrite Hs in *. rewrite (ParseInt_unsigned c rest Hplus Hminus), Hloop.
  destruct (Z.ltb_spec 65535 (Z.pos p));
    destruct (Z.ltb_spec (Z.pos p) 32768); try lia;
    try (replace (32768 <=? Z.pos p) with false
          by (symmetry; apply Z.leb_gt; lia));
    try (replace (32768 <=? Z.pos p) with true
          by (symmetry; apply Z.leb_le; lia));
    reflexivity.
Qed.

(** The decimal text is ASCII without letters. *)
Lemma upper_decimal (d : Decimal.uint) :
  GoString.isASCII (NilEmpty.string_of_uint d) = true
  /\ GoString.map_bytes GoString.upper_byte (NilEmpty.string_of_uint d)
     = NilEmpty.string_of_uint d.
Proof.
  unfold GoString.isASCII, GoString.map_bytes, GoString.bytes, GoString.of_bytes.
  induction d as [| d [IH1 IH2] | d [IH1 IH2] | d [IH1 IH2] | d [IH1 IH2]
                  | d [IH1 IH2] | d [IH1 IH2] | d [IH1 IH2] | d [IH1 IH2]
                  | d [IH1 IH2] | d [IH1 IH2]];
    simpl; [split; reflexivity | ..];
    (split; [exact IH1 | now rewrite IH2]).
Qed.

End Decimal.

(** ** Type resolution *)

Section TypeResolution.
Variable L : Lib.

Lemma ToUpper_decimal (n : Z) : 0 < n -> ToUpper L (Itoa n) = Itoa n.
Proof.
  intros Hn. destruct n as [| p |]; try lia.
  unfold Itoa. simpl Z.to_int. unfold NilZero.string_of_int,
    NilZero.string_of_uint.
  pose proof (Unsigned.to_uint_nonnil p) as Hnil.
  replace (match Pos.to_uint p with
           | Decimal.Nil => "0"
           | _ => NilEmpty.string_of_uint (Pos.to_uint p)
           end) with (NilEmpty.string_of_uint (Pos.to_uint p))
    by (destruct (Pos.to_uint p); congruence).
  destruct (upper_decimal (Pos.to_uint p)) as [Hascii Hupper].
  unfold ToUpper. now rewrite Hascii.
Qed.

Lemma stringToRRType_errors (s : string) (e : error) :
  stringToRRType L s = Err e -> e = errIntOutOfRange \/ e = errUnknownType.
Proof.
  unfold stringToRRType.
  destruct (strconv.ParseInt s 10 16) as [i [ne |]].
  - destruct (StringToType L !! ToUpper L s); intros H; inversion H; auto.
  - destruct ((1 <=? i) && (i <=? 65535)); intros H; inversion H; auto.
Qed.

End TypeResolution.

(** C2 (the code does otherwise).  The decimal text of [n] is resolved to
    the code [n] for [n] from 1 to 32767 only; from 32768 on (65535 and
    65536 included) the text is not taken as a number, since [ParseInt] is
    asked for 16 bits, sign included, but looked up in the table of type
    names, which gives [errUnknownType] when it is not a name; ["0"] gives
    [errIntOutOfRange]. *)
Theorem C2_decimal_types_stop_at_int16 (L : Lib) :
  (forall n : Z, 1 <= n <= 32767 -> stringToRRType L (Itoa n) = Ok n)
  /\ (forall n : Z, 32768 <= n ->
        stringToRRType L (Itoa n)
        = match StringToType L !! Itoa n with
          | Some rrType => Ok rrType
          | None => Err errUnknownType
          end)
  /\ stringToRRType L "0" = Err errIntOutOfRange.
Proof.
  split; [| split].
  - intros n Hn. unfold stringToRRType. rewrite ParseInt_decimal by lia.
    replace (n <? 32768) with true by (symmetry; apply Z.ltb_lt; lia).
    replace ((1 <=? n) && (n <=? 65535)) with true
      by (symmetry; apply andb_true_intro; split; lia).
    rewrite Z.mod_small by lia. reflexivity.
  - intros n Hn. unfold stringToRRType. rewrite ParseInt_decimal by lia.
    replace (n <? 32768) with false by (symmetry; apply Z.ltb_ge; lia).
    rewrite (ToUpper_decimal L n) by lia.
    destruct (StringToType L !! Itoa n); reflexivity.
  - reflexivity.
Qed.

(** The types ["65535"] and ["65536"] are both unknown type names. *)
Lemma C2_types_65535_and_65536 :
  stringToRRType Stub.lib "65535" = Err errUnknownType
  /\ stringToRRType Stub.lib "65536" = Err errUnknownType
  /\ stringToRRType Stub.lib "32767" = Ok 32767.
Proof.
  pose proof (C2_decimal_types_stop_at_int16 Stub.lib) as (Hlow & Hhigh & _).
  split; [| split].
  - exact (Hhigh 65535 ltac:(lia)).
  - exact (Hhigh 65536 ltac:(lia)).
  - exact (Hlow 32767 ltac:(lia)).
Defined.

(** ** Case folding of ASCII strings *)

Section CaseFolding.
Variable L : Lib.
Import GoString.


Lemma upper_byte_ascii (c : ascii) :
  (byte_of c <? RuneSelf) = true -> (byte_of (upper_byte c) <? RuneSelf) = true.
Proof.
  destruct c as [[] [] [] [] [] [] [] []]; intros H;
    first [reflexivity | exact H].
Qed.

Lemma bytes_of_bytes (l : list ascii) : bytes (of_bytes l) = l.
Proof. apply list_ascii_of_string_of_list_ascii. Qed.

Lemma isASCII_upper (s : string) :
  isASCII s = true -> isASCII (map_bytes upper_byte s) = true.
Proof.
  unfold isASCII, map_bytes. rewrite bytes_of_bytes.
  induction (bytes s) as [| c l IH]; simpl; [reflexivity |].
  intros H. apply andb_prop in H as [Hc Hl].
  now rewrite (upper_byte_ascii c Hc), IH.
Qed.


End CaseFolding.

(** ** The query parser *)

Section Parser.
Variable L : Lib.

Lemma stringToBool_errors (s : string) (e : error) :
  stringToBool L s = Err e -> e = errInvalidCD.
Proof.
  unfold stringToBool.
  destruct (_ || _ || _); [discriminate |].
  destruct (_ || _); [discriminate |]. now intros [= <-].
Qed.

(** [parseQuery] read as a chain of the five checks. *)
Lemma parseQuery_chain (u : url.URL) :
  let vs := simplify (url.Query u) in
  parseQuery L u
  = match vs !! "name" with
    | None => Err errEmptyName
    | Some n =>
        if String.eqb n EmptyString then Err errEmptyName
        else if 253 <? GoString.len n then Err errNameTooLong
        else
          match (match vs !! "type" with
                 | Some t => stringToRRType L t
                 | None => Ok 1
                 end) with
          | Err err => Err err
          | Ok rrType =>
              match (match vs !! "cd" with
                     | Some v => stringToBool L v
                     | None => Ok false
                     end) with
              | Err err => Err err
              | Ok cd =>
                  match vs !! "edns_client_subnet" with
                  | Some c =>
                      match net.ParseCIDR (ParseAddr L) c with
                      | None => Err errInvalidSubnet
                      | Some (_, ipnet) => Ok (mkquery n rrType cd (Some ipnet))
                      end
                  | None => Ok (mkquery n rrType cd None)
                  end
              end
          end
    end.
Proof.
  intros vs. unfold parseQuery, index_ok, index. fold vs.
  destruct (vs !! "name") as [n |]; simpl; [| reflexivity].
  destruct (String.eqb n EmptyString); [reflexivity |].
  destruct (253 <? GoString.len n); [reflexivity |].
  destruct (vs !! "type"); reflexivity.
Qed.

(** The client subnet of an accepted query is the network that
    [net.ParseCIDR] returns for the value of [edns_client_subnet]. *)
Lemma parseQuery_clientSubnet (u : url.URL) (q : query) (ipnet : net.IPNet) :
  parseQuery L u = Ok q -> clientSubnet q = Some ipnet ->
  exists c lit,
    simplify (url.Query u) !! "edns_client_subnet" = Some c
    /\ net.ParseCIDR (ParseAddr L) c = Some (lit, ipnet).
Proof.
  rewrite parseQuery_chain. cbv zeta.
  destruct (simplify (url.Query u) !! "name") as [n |]; [| discriminate].
  destruct (String.eqb n EmptyString); [discriminate |].
  destruct (253 <? GoString.len n); [discriminate |].
  destruct (match simplify (url.Query u) !! "type" with
            | Some t => stringToRRType L t
            | None => Ok 1
            end) as [rrType | err]; [| discriminate].
  destruct (match simplify (url.Query u) !! "cd" with
            | Some v => stringToBool L v
            | None => Ok false
            end) as [b | err]; [| discriminate].
  destruct (simplify (url.Query u) !! "edns_client_subnet") as [c |].
  - destruct (net.ParseCIDR (ParseAddr L) c) as [[lit ipnet'] |] eqn:Hc;
      [| discriminate].
    intros [= <-] [= <-]. eauto.
  - intros [= <-]. discriminate.
Qed.

End Parser.

(** The query [?name=example.com&edns_client_subnet=1.2.3.4/24] end to end:
    the one exchange carries the address [1.2.3.0], family 1, scope 0 and
    source netmask 32. *)
Example Resolve_subnet_1_2_3_4_24 :
  exchanges
    (events (Resolve Stub.lib (Stub_server "up:53")
               (Stub_request "name=example.com&edns_client_subnet=1.2.3.4/24")
               []))
  = [(dns.mkMsg 4242 false true false false false 0
        [dns.mkQuestion "example.com." 1 1] []
        [dns.OPT (dns.mkRR_Header "." 41 0 0 0)
                 [dns.mkEDNS0_SUBNET 8 1 32 0 [1; 2; 3; 0]]],
      "up:53")].
Proof. reflexivity. Qed.



(** The two checks of [parseQuery] on the name, with its length in
    bytes. *)
Lemma parseQuery_name_checks (L : Lib) (u : url.URL) :
  let vs := simplify (url.Query u) in
  (vs !! "name" = None \/ vs !! "name" = Some EmptyString ->
   parseQuery L u = Err errEmptyName)
  /\ (forall n, vs !! "name" = Some n -> 253 < GoString.len n ->
        parseQuery L u = Err errNameTooLong)
  /\ (forall n, vs !! "name" = Some n -> 1 <= GoString.len n <= 253 ->
        parseQuery L u <> Err errEmptyName
        /\ parseQuery L u <> Err errNameTooLong
        /\ (vs !! "type" = None -> vs !! "cd" = None ->
            vs !! "edns_client_subnet" = None ->
            parseQuery L u = Ok (mkquery n 1 false None))).
Proof.
  intros vs. rewrite parseQuery_chain. fold vs. repeat apply conj.
  - intros [-> | ->]; reflexivity.
  - intros n -> Hlen.
    destruct (String.eqb_spec n EmptyString) as [-> | _]; [discriminate Hlen |].
    now apply Z.ltb_lt in Hlen as ->.
  - intros n -> Hlen.
    destruct (String.eqb_spec n EmptyString) as [-> | _];
      [unfold GoString.len in Hlen; simpl in Hlen; lia |].
    replace (253 <? GoString.len n) with false by (symmetry; apply Z.ltb_ge; lia).
    assert (forall r : res query,
               (forall e, r = Err e ->
                          In e [errIntOutOfRange; errUnknownType; errInvalidCD;
                                errInvalidSubnet]) ->
               r <> Err errEmptyName /\ r <> Err errNameTooLong) as Hlater.
    { intros r Hr. split; intros ->;
        destruct (Hr _ eq_refl) as [H | [H | [H | [H | []]]]]; discriminate. }
    split; [| split].
    1, 2: apply Hlater.
    3: { intros -> -> ->. reflexivity. }
    all: intros e;
      destruct (vs !! "type") as [t |];
      [destruct (stringToRRType L t) as [rrType | err] eqn:Ht;
       [| intros [= <-];
          apply stringToRRType_errors in Ht as [-> | ->]; simpl; auto 10] |];
      (destruct (vs !! "cd") as [v |];
       [destruct (stringToBool L v) as [b | err] eqn:Hb;
        [| intros [= <-];
           apply stringToBool_errors in Hb as ->; simpl; auto 10] |]);
      (destruct (vs !! "edns_client_subnet") as [c |];
       [destruct (net.ParseCIDR (ParseAddr L) c) as [[lit ipnet] |];
        [discriminate | intros [= <-]; simpl; auto 10]
       | discriminate]).
Qed.


Lemma characters_le_len (s : string) : characters s <= GoString.len s.
Proof.
  unfold characters, GoString.len, GoString.bytes.
  induction s as [| c s IH]; simpl; [lia |].
  destruct (negb _); simpl; lia.
Qed.

Lemma characters_ASCII (s : string) :
  GoString.isASCII s = true -> characters s = GoString.len s.
Proof.
  unfold characters, GoString.len, GoString.isASCII, GoString.bytes,
    GoString.RuneSelf.
  induction s as [| c s IH]; simpl; [reflexivity |].
  intros H. apply andb_prop in H as [Hc Hs]. apply Z.ltb_lt in Hc.
  replace (128 <=? GoString.byte_of c) with false
    by (symmetry; apply Z.leb_gt; lia).
  simpl. specialize (IH Hs). lia.
Qed.

(** C7 (amended: the bound of 253 is on the bytes of the name, as [len]
    counts them).  A query without the key [name], or with an empty one,
    is refused with [errEmptyName]; a name of more than 253 bytes, and so
    every name of more than 253 characters, is refused with
    [errNameTooLong]; a name of 1 to 253 bytes, and so every ASCII name of
    1 to 253 characters, passes both checks, and is the name of the parsed
    query when no other parameter is given. *)
Theorem C7_name_validation (L : Lib) (u : url.URL) :
  let vs := simplify (url.Query u) in
  (vs !! "name" = None \/ vs !! "name" = Some EmptyString ->
   parseQuery L u = Err errEmptyName)
  /\ (forall n, vs !! "name" = Some n -> 253 < GoString.len n ->
        parseQuery L u = Err errNameTooLong)
  /\ (forall n, vs !! "name" = Some n -> 1 <= GoString.len n <= 253 ->
        parseQuery L u <> Err errEmptyName
        /\ parseQuery L u <> Err errNameTooLong
        /\ (vs !! "type" = None -> vs !! "cd" = None ->
            vs !! "edns_client_subnet" = None ->
            parseQuery L u = Ok (mkquery n 1 false None)))
  /\ (forall n, vs !! "name" = Some n -> 253 < characters n ->
        parseQuery L u = Err errNameTooLong)
  /\ (forall n, vs !! "name" = Some n -> GoString.isASCII n = true ->
        1 <= characters n <= 253 ->
        parseQuery L u <> Err errEmptyName
        /\ parseQuery L u <> Err errNameTooLong
        /\ (vs !! "type" = None -> vs !! "cd" = None ->
            vs !! "edns_client_subnet" = None ->
            parseQuery L u = Ok (mkquery n 1 false None))).
Proof.
  intros vs.
  destruct (parseQuery_name_checks L u) as (Hempty & Hlong & Hfits).
  fold vs in Hempty, Hlong, Hfits.
  split; [exact Hempty |]. split; [exact Hlong |]. split; [exact Hfits |].
  split.
  - intros n Hn Hchars. apply (Hlong n Hn).
    pose proof (characters_le_len n). lia.
  - intros n Hn Hascii Hchars. apply (Hfits n Hn).
    rewrite <- (characters_ASCII n Hascii). exact Hchars.
Qed.

(** No name, an empty name, and names of 254 and of 253 letters. *)
Lemma C7_names_of_253_and_254_bytes :
  parseQuery Stub.lib (url.mkURL "cd=1") = Err errEmptyName
  /\ parseQuery Stub.lib (url.mkURL "name=") = Err errEmptyName
  /\ parseQuery Stub.lib (url.mkURL ("name=" +:+ name_of_length 254))
     = Err errNameTooLong
  /\ parseQuery Stub.lib (url.mkURL ("name=" +:+ name_of_length 253))
     = Ok (mkquery (name_of_length 253) 1 false None).
Proof.
  split; [| split; [| split]].
  - apply (proj1 (C7_name_validation Stub.lib (url.mkURL "cd=1"))).
    left. reflexivity.
  - apply (proj1 (C7_name_validation Stub.lib (url.mkURL "name="))).
    right. reflexivity.
  - apply (proj1 (proj2 (proj2 (proj2
             (C7_name_validation Stub.lib
                (url.mkURL ("name=" +:+ name_of_length 254))))))
             (name_of_length 254));
      [reflexivity | vm_compute; reflexivity].
  - apply (proj2 (proj2 (proj2 (proj2
             (C7_name_validation Stub.lib
                (url.mkURL ("name=" +:+ name_of_length 253))))))
             (name_of_length 253));
      [reflexivity | reflexivity | vm_compute; split; discriminate
       | reflexivity | reflexivity | reflexivity].
Defined.

(** C7 as it was claimed fails: a name of 253 characters, one of them of
    two bytes, is refused with [errNameTooLong]. *)
Lemma C7_name_of_253_characters_is_refused :
  simplify (url.Query (url.mkURL query_of_253_characters)) !! "name"
  = Some name_of_253_characters
  /\ characters name_of_253_characters = 253
  /\ GoString.len name_of_253_characters = 254
  /\ parseQuery Stub.lib (url.mkURL query_of_253_characters)
     = Err errNameTooLong.
Proof. repeat split; vm_compute; reflexivity. Qed.

(** ** The values map *)

Section Values.
Variable L : Lib.

Lemma simplify_lookup (values : gmap string (list string)) (k : string) :
  simplify values !! k = first_value <$> values !! k.
Proof.
  unfold simplify. revert k.
  apply (map_fold_weak_ind
           (fun (vs : gmap string string) (m : gmap string (list string)) =>
              forall k, vs !! k = first_value <$> m !! k)).
  - intros k. now rewrite !lookup_empty.
  - intros i x m r Hi IH k.
    assert (match x with
            | v0 :: _ => <[i:=v0]> r
            | [] => <[i:=EmptyString]> r
            end = <[i:=first_value x]> r) as -> by now destruct x.
    destruct (decide (i = k)) as [-> | Hne].
    + now rewrite !lookup_insert_eq.
    + rewrite !lookup_insert_ne by assumption. apply IH.
Qed.

Lemma fold_pieces_lookup (ps : list string) (m : gmap string (list string))
      (k : string) :
  fold_left url.step ps m !! k
  = match values_of k (omap url.pair_of ps) with
    | [] => m !! k
    | v :: vs => Some (default [] (m !! k) ++ v :: vs)%list
    end.
Proof.
  revert m. induction ps as [| p ps IH]; intros m; [reflexivity |].
  simpl fold_left. rewrite IH. unfold url.step, values_of. simpl omap.
  destruct (url.pair_of p) as [[k' v'] |]; [| reflexivity].
  rewrite filter_cons. unfold url.add. simpl fst. simpl snd.
  destruct (decide (k' = k)) as [-> | Hne].
  - rewrite lookup_insert_eq. simpl.
    destruct (map snd (filter _ _)) as [| v vs]; [reflexivity |].
    simpl. now rewrite <- app_assoc.
  - now rewrite lookup_insert_ne by assumption.
Qed.

Lemma ParseQuery_lookup (raw k : string) :
  url.ParseQuery raw !! k
  = match values_of k (decoded_pairs raw) with
    | [] => None
    | v :: vs => Some (v :: vs)
    end.
Proof.
  unfold url.ParseQuery.
  rewrite fold_pieces_lookup, lookup_empty. reflexivity.
Qed.

End Values.


(** A repeated [name]: the first one is the name of the query. *)
Example parseQuery_repeated_name :
  parseQuery Stub.lib (url.mkURL "name=a.example&name=b.example")
  = Ok (mkquery "a.example" 1 false None).
Proof. reflexivity. Qed.

(** ** The handler *)

Section Handler.
Variable L : Lib.

(** The runs of [Resolve], by what the parser and the upstream return. *)
Lemma Resolve_refused (s : Server) (req : http.Request) (err : error) :
  parseQuery L (http.URL req) = Err err ->
  Resolve L s req [] = Done tt [EvError err http.StatusBadRequest].
Proof. intros H. unfold Resolve. now rewrite H. Qed.

Lemma Resolve_exchanged (s : Server) (req : http.Request) (q : query) :
  parseQuery L (http.URL req) = Ok q ->
  let sent := EvExchange (request_of L q) (Upstream s) in
  Resolve L s req []
  = match Exchange L (request_of L q) (Upstream s) with
    | (_, Some err) =>
        Done tt [sent; EvError (TraceErrorf L "dns exchange error: %v" [err])
                               http.StatusFailedDependency]
    | (None, None) =>
        Done tt [sent; EvError (TraceErrorf L "no response from upstream" [])
                               http.StatusRequestTimeout]
    | (Some fromUp, None) =>
        match response_of L fromUp with
        | None => Panicked [sent]
        | Some jr =>
            match Marshal L jr with
            | Err err =>
                Done tt [sent;
                         EvError (TraceErrorf L "failed to marshal: %v" [err])
                                 http.StatusInternalServerError]
            | Ok buf => Done tt [sent; EvWrite buf]
            end
        end
    end.
Proof.
  intros H. unfold Resolve. rewrite H.
  unfold bind, dns_Exchange, bind, emit, ret, http_Error, w_Write, emit, panic.
  simpl.
  destruct (Exchange L (request_of L q) (Upstream s)) as [[fromUp |] [err |]];
    try reflexivity.
  destruct (response_of L fromUp) as [jr |]; [| reflexivity].
  destruct (Marshal L jr); reflexivity.
Qed.

End Handler.

(** C3.  A query that the parser refuses is answered with status 400 and
    the parser's error text; an error of the exchange with 424, no reply
    and no error with 408, a failure of [json.Marshal] with 500, each with
    the text of the error made for it.  No run sends both an error and a
    body. *)
Theorem C3_failure_statuses (L : Lib) (s : Server) (req : http.Request) :
  (forall err, parseQuery L (http.URL req) = Err err ->
     Resolve L s req [] = Done tt [EvError err http.StatusBadRequest])
  /\ (forall q fromUp err,
        parseQuery L (http.URL req) = Ok q ->
        Exchange L (request_of L q) (Upstream s) = (fromUp, Some err) ->
        Resolve L s req []
        = Done tt [EvExchange (request_of L q) (Upstream s);
                   EvError (TraceErrorf L "dns exchange error: %v" [err])
                           http.StatusFailedDependency])
  /\ (forall q,
        parseQuery L (http.URL req) = Ok q ->
        Exchange L (request_of L q) (Upstream s) = (None, None) ->
        Resolve L s req []
        = Done tt [EvExchange (request_of L q) (Upstream s);
                   EvError (TraceErrorf L "no response from upstream" [])
                           http.StatusRequestTimeout])
  /\ (forall q fromUp jr err,
        parseQuery L (http.URL req) = Ok q ->
        Exchange L (request_of L q) (Upstream s) = (Some fromUp, None) ->
        response_of L fromUp = Some jr ->
        Marshal L jr = Err err ->
        Resolve L s req []
        = Done tt [EvExchange (request_of L q) (Upstream s);
                   EvError (TraceErrorf L "failed to marshal: %v" [err])
                           http.StatusInternalServerError])
  /\ (errors_sent (events (Resolve L s req [])) = []
      \/ bodies_written (events (Resolve L s req [])) = []).
Proof.
  repeat apply conj.
  - apply Resolve_refused.
  - intros q fromUp err Hq Hx. rewrite (Resolve_exchanged L s req q Hq).
    cbv zeta. rewrite Hx. now destruct fromUp.
  - intros q Hq Hx. rewrite (Resolve_exchanged L s req q Hq).
    cbv zeta. now rewrite Hx.
  - intros q fromUp jr err Hq Hx Hjr Hm.
    rewrite (Resolve_exchanged L s req q Hq). cbv zeta.
    now rewrite Hx, Hjr, Hm.
  - destruct (parseQuery L (http.URL req)) as [q | err] eqn:Hq.
    + rewrite (Resolve_exchanged L s req q Hq). cbv zeta.
      destruct (Exchange L (request_of L q) (Upstream s))
        as [[fromUp |] [err |]]; try (right; reflexivity).
      destruct (response_of L fromUp) as [jr |]; [| right; reflexivity].
      destruct (Marshal L jr); [left | right]; reflexivity.
    + rewrite (Resolve_refused L s req err Hq). right. reflexivity.
Qed.

(** The four failures, on the stub upstream. *)
Lemma C3_the_four_failures :
  Resolve Stub.lib (Stub_server "up:53") (Stub_request "type=A") []
  = Done tt [EvError "empty name" 400]
  /\ errors_sent
       (events (Resolve Stub.lib (Stub_server "down") (Stub_request "name=a.example") []))
     = [("dns exchange error: connection refused", 424)]
  /\ errors_sent
       (events (Resolve Stub.lib (Stub_server "silent") (Stub_request "name=a.example") []))
     = [("no response from upstream", 408)]
  /\ errors_sent
       (events (Resolve Stub.lib (Stub_server "empty") (Stub_request "name=a.example") []))
     = [("failed to marshal: no question", 500)].
Proof.
  repeat apply conj.
  - exact (proj1 (C3_failure_statuses Stub.lib (Stub_server "up:53")
                    (Stub_request "type=A")) errEmptyName eq_refl).
  - exact (f_equal (fun o => errors_sent (events o))
             (proj1 (proj2 (C3_failure_statuses Stub.lib (Stub_server "down")
                              (Stub_request "name=a.example")))
                (mkquery "a.example" 1 false None) None "connection refused"
                eq_refl eq_refl)).
  - exact (f_equal (fun o => errors_sent (events o))
             (proj1 (proj2 (proj2 (C3_failure_statuses Stub.lib
                                     (Stub_server "silent")
                                     (Stub_request "name=a.example"))))
                (mkquery "a.example" 1 false None) eq_refl eq_refl)).
  - exact (f_equal (fun o => errors_sent (events o))
             (proj1 (proj2 (proj2 (proj2 (C3_failure_statuses Stub.lib
                                     (Stub_server "empty")
                                     (Stub_request "name=a.example")))))
                (mkquery "a.example" 1 false None) dns.Msg_zero
                (dnsjson.mkResponse 0 false false false false false [] [])
                "no question" eq_refl eq_refl eq_refl eq_refl)).
Defined.

(** C4.  A refused query makes no exchange with the upstream; an accepted
    one makes exactly one, with the request built from it, whatever the
    upstream returns. *)
Theorem C4_one_exchange_after_validation
  (L : Lib) (s : Server) (req : http.Request) :
  match parseQuery L (http.URL req) with
  | Err _ => exchanges (events (Resolve L s req [])) = []
  | Ok q =>
      exchanges (events (Resolve L s req [])) = [(request_of L q, Upstream s)]
  end.
Proof.
  destruct (parseQuery L (http.URL req)) as [q | err] eqn:Hq.
  - rewrite (Resolve_exchanged L s req q Hq). cbv zeta.
    destruct (Exchange L (request_of L q) (Upstream s))
      as [[fromUp |] [err |]]; try reflexivity.
    destruct (response_of L fromUp) as [jr |]; [| reflexivity].
    destruct (Marshal L jr); reflexivity.
  - now rewrite (Resolve_refused L s req err Hq).
Qed.

(** ** The reply converted for JSON *)

Section Response.
Variable L : Lib.
Import GoString.




Lemma question_loop_spec (qs : list dns.Question) (jr : dnsjson.Response) :
  question_loop qs jr
  = dnsjson.mkResponse (dnsjson.Status jr) (dnsjson.TC jr) (dnsjson.RD jr)
      (dnsjson.RA jr) (dnsjson.AD jr) (dnsjson.CD jr)
      (dnsjson.Question jr ++ map question_of qs)%list (dnsjson.Answer jr).
Proof.
  unfold question_loop. revert jr.
  induction qs as [| q qs IH]; intros jr; simpl.
  - rewrite app_nil_r. now destruct jr.
  - rewrite IH. simpl. now rewrite <- app_assoc.
Qed.


End Response.




(** The query [?name=example.com] end to end. *)
Example Resolve_example_com :
  response_of Stub.lib Stub_reply
  = Some (dnsjson.mkResponse 0 false true true false false
            [dnsjson.mkRR "example.com." 1 0 EmptyString]
            [dnsjson.mkRR "example.com." 1 300 "192.0.2.1"])
  /\ Resolve Stub.lib (Stub_server "up:53") (Stub_request "name=example.com") []
     = Done tt [EvExchange
                  (dns.mkMsg 4242 false true false false false 0
                     [dns.mkQuestion "example.com." 1 1] [] [])
                  "up:53";
                EvWrite "192.0.2.1"].
Proof. split; reflexivity. Qed.

(** * Further properties *)

(** ** What the parser accepts and refuses *)

Section ParserOutcomes.
Variable L : Lib.

Lemma name_accepted_chain (vs : gmap string string) (n : string) :
  name_accepted vs n ->
  vs !! "name" = Some n /\ String.eqb n EmptyString = false
  /\ (253 <? GoString.len n) = false.
Proof.
  intros [Hn Hlen]. split; [exact Hn |]. split.
  - destruct (String.eqb_spec n EmptyString) as [-> | _]; [| reflexivity].
    unfold GoString.len in Hlen. simpl in Hlen. lia.
  - apply Z.ltb_ge. lia.
Qed.

Lemma chain_name_accepted (vs : gmap string string) (n : string) :
  vs !! "name" = Some n -> String.eqb n EmptyString = false ->
  (253 <? GoString.len n) = false -> name_accepted vs n.
Proof.
  intros Hn He Hlen. split; [exact Hn |]. apply Z.ltb_ge in Hlen.
  split; [| exact Hlen].
  destruct n as [| c n]; [discriminate |].
  unfold GoString.len. simpl. lia.
Qed.

(** The refused queries, by the check that refuses them. *)
Lemma parseQuery_Err_iff (u : url.URL) (e : error) :
  parseQuery L u = Err e
  <-> (e = errEmptyName
       /\ (simplify (url.Query u) !! "name" = None
           \/ simplify (url.Query u) !! "name" = Some EmptyString))
      \/ (e = errNameTooLong
          /\ exists n, simplify (url.Query u) !! "name" = Some n
                       /\ 253 < GoString.len n)
      \/ (exists n, name_accepted (simplify (url.Query u)) n)
         /\ (type_of L (simplify (url.Query u)) = Err e
             \/ (exists t, type_of L (simplify (url.Query u)) = Ok t)
                /\ (cd_of L (simplify (url.Query u)) = Err e
                    \/ (exists b, cd_of L (simplify (url.Query u)) = Ok b)
                       /\ e = errInvalidSubnet
                       /\ subnet_of L (simplify (url.Query u)) = None)).
Proof.
  rewrite parseQuery_chain. cbv zeta.
  unfold type_of, cd_of, subnet_of, name_accepted.
  set (vs := simplify (url.Query u)).
  destruct (vs !! "name") as [n |] eqn:Hn.
  2: { split; [intros [= <-]; left; auto |]. intros [[-> _] | [[_ (n & Hn' & _)] | [[n [Hn' _]] _]]];
       [reflexivity | discriminate | discriminate]. }
  destruct (String.eqb_spec n EmptyString) as [-> | Hne].
  { split; [intros [= <-]; left; auto |].
    intros [[-> _] | [[_ (n & [= <-] & Hlen)] | [[n [[= <-] Hlen]] _]]];
      [reflexivity | |]; unfold GoString.len in Hlen; simpl in Hlen; lia. }
  destruct (Z.ltb_spec 253 (GoString.len n)) as [Hlong | Hshort].
  { split; [intros [= <-]; right; left; eauto |].
    intros [[_ [H | H]] | [[-> _] | [[n' [[= <-] Hlen]] _]]];
      [discriminate | congruence | reflexivity | lia]. }
  assert (1 <= GoString.len n <= 253) as Hacc.
  { split; [| exact Hshort].
    destruct n as [| c n]; [congruence |]. unfold GoString.len. simpl. lia. }
  assert (forall P : Prop,
             P <-> (e = errEmptyName /\ (Some n = None \/ Some n = Some EmptyString))
                   \/ (e = errNameTooLong
                       /\ exists n0, Some n = Some n0 /\ 253 < GoString.len n0)
                   \/ (exists n0, Some n = Some n0 /\ 1 <= GoString.len n0 <= 253) /\ P)
    as Hskip.
  { intros P. split; [intros HP; right; right; eauto |].
    intros [[_ [H | H]] | [[_ (n0 & [= <-] & Hlen)] | [_ HP]]];
      [discriminate | congruence | lia | exact HP]. }
  rewrite <- Hskip.
  destruct (match vs !! "type" with
            | Some t => stringToRRType L t
            | None => Ok 1
            end) as [rrType | err].
  2: { split; [intros [= <-]; left; reflexivity |].
       intros [[= <-] | [[t Ht] _]]; [reflexivity | discriminate]. }
  destruct (match vs !! "cd" with
            | Some v => stringToBool L v
            | None => Ok false
            end) as [b | err].
  2: { split; [intros [= <-]; right; split; [eauto | left; reflexivity] |].
       intros [H | [_ [[= <-] | [[b Hb] _]]]];
         [discriminate | reflexivity | discriminate]. }
  destruct (vs !! "edns_client_subnet") as [c |].
  - destruct (net.ParseCIDR (ParseAddr L) c) as [[lit ipnet] |].
    + split; [discriminate |].
      intros [H | [_ [H | [_ [_ H]]]]]; discriminate.
    + split.
      * intros [= <-]. right. split; [eauto |]. right. split; [eauto |]. auto.
      * intros [H | [_ [H | [_ [-> _]]]]]; [discriminate .. | reflexivity].
  - split; [discriminate |].
    intros [H | [_ [H | [_ [_ H]]]]]; discriminate.
Qed.

End ParserOutcomes.

(** X1.  A query is accepted exactly when its name has 1 to 253 bytes and
    its type, its [cd] and its client subnet resolve, each to its default
    when the key is absent; the parsed query holds the name and the three
    resolved values. *)
Theorem X1_accepted_queries (L : Lib) (u : url.URL) (q : query) :
  parseQuery L u = Ok q
  <-> name_accepted (simplify (url.Query u)) (name q)
      /\ type_of L (simplify (url.Query u)) = Ok (rrType q)
      /\ cd_of L (simplify (url.Query u)) = Ok (cd q)
      /\ subnet_of L (simplify (url.Query u)) = Some (clientSubnet q).
Proof.
  rewrite parseQuery_chain. cbv zeta. unfold type_of, cd_of, subnet_of.
  set (vs := simplify (url.Query u)). split.
  - destruct (vs !! "name") as [n |] eqn:Hn; [| discriminate].
    destruct (String.eqb n EmptyString) eqn:He; [discriminate |].
    destruct (253 <? GoString.len n) eqn:Hlen; [discriminate |].
    pose proof (chain_name_accepted _ n Hn He Hlen) as Hacc.
    destruct (match vs !! "type" with
              | Some t => stringToRRType L t
              | None => Ok 1
              end) as [rrType | err]; [| discriminate].
    destruct (match vs !! "cd" with
              | Some v => stringToBool L v
              | None => Ok false
              end) as [b | err]; [| discriminate].
    destruct (vs !! "edns_client_subnet") as [c |].
    + destruct (net.ParseCIDR (ParseAddr L) c) as [[lit ipnet] |];
        [| discriminate].
      intros [= <-]. simpl. auto.
    + intros [= <-]. simpl. auto.
  - intros (Hacc & Ht & Hcd & Hs).
    destruct (name_accepted_chain _ _ Hacc) as (-> & -> & ->).
    rewrite Ht, Hcd.
    destruct (vs !! "edns_client_subnet") as [c |].
    + destruct (net.ParseCIDR (ParseAddr L) c) as [[lit ipnet] |];
        [| discriminate].
      injection Hs as Hs. rewrite Hs. now destruct q.
    + injection Hs as Hs. rewrite Hs. now destruct q.
Qed.


(** X2.  Each error of the parser tells which check refused the query: the
    checks are made in the order name, type, [cd], client subnet, and the
    first one that fails gives the error. *)
Theorem X2_refusal_by_first_failing_check (L : Lib) (u : url.URL) :
  let vs := simplify (url.Query u) in
  (parseQuery L u = Err errEmptyName
   <-> vs !! "name" = None \/ vs !! "name" = Some EmptyString)
  /\ (parseQuery L u = Err errNameTooLong
      <-> exists n, vs !! "name" = Some n /\ 253 < GoString.len n)
  /\ (forall e, e = errIntOutOfRange \/ e = errUnknownType ->
        (parseQuery L u = Err e
         <-> (exists n, name_accepted vs n) /\ type_of L vs = Err e))
  /\ (parseQuery L u = Err errInvalidCD
      <-> (exists n, name_accepted vs n) /\ (exists t, type_of L vs = Ok t)
          /\ cd_of L vs = Err errInvalidCD)
  /\ (parseQuery L u = Err errInvalidSubnet
      <-> (exists n, name_accepted vs n) /\ (exists t, type_of L vs = Ok t)
          /\ (exists b, cd_of L vs = Ok b) /\ subnet_of L vs = None).
Proof.
  intros vs.
  assert (forall e, type_of L vs = Err e ->
                    e = errIntOutOfRange \/ e = errUnknownType) as Htype.
  { unfold type_of. intros e. destruct (vs !! "type"); [| discriminate].
    apply stringToRRType_errors. }
  assert (forall e, cd_of L vs = Err e -> e = errInvalidCD) as Hcd.
  { unfold cd_of. intros e. destruct (vs !! "cd"); [| discriminate].
    apply stringToBool_errors. }
  split; [| split; [| split; [| split]]]; [| | intros e He |..];
    rewrite parseQuery_Err_iff; fold vs; split.
  - intros [[_ H] | [[H _] | [_ [H | [_ [H | [_ [H _]]]]]]]];
      [exact H | discriminate | | | discriminate].
    + apply Htype in H as [H | H]; discriminate.
    + apply Hcd in H. discriminate.
  - intros H. left. auto.
  - intros [[H _] | [[_ H] | [_ [H | [_ [H | [_ [H _]]]]]]]];
      [discriminate | exact H | | | discriminate].
    + apply Htype in H as [H | H]; discriminate.
    + apply Hcd in H. discriminate.
  - intros H. right. left. auto.
  - intros [[H _] | [[H _] | [Hn [H | [_ [H | [_ [H _]]]]]]]].
    + destruct He; subst; discriminate.
    + destruct He; subst; discriminate.
    + auto.
    + apply Hcd in H. destruct He; subst; discriminate.
    + destruct He; subst; discriminate.
  - intros [Hn H]. right. right. auto.
  - intros [[H _] | [[H _] | [Hn [H | [Ht [H | [_ [H _]]]]]]]];
      [discriminate | discriminate | | auto | discriminate].
    apply Htype in H as [H | H]; discriminate.
  - intros (Hn & Ht & H). right. right. auto.
  - intros [[H _] | [[H _] | [Hn [H | [Ht [H | [Hb [_ H]]]]]]]];
      [discriminate | discriminate | | | auto].
    + apply Htype in H as [H | H]; discriminate.
    + apply Hcd in H. discriminate.
  - intros (Hn & Ht & Hb & H). right. right. auto 10.
Qed.

(** A query without name and with a bad type, and one with a bad type and
    a bad [cd]: the first check that fails gives the error. *)
Lemma X2_first_failures :
  parseQuery Stub.lib (url.mkURL "type=bogus&cd=2") = Err errEmptyName
  /\ parseQuery Stub.lib (url.mkURL "name=a.example&type=bogus&cd=2")
     = Err errUnknownType.
Proof.
  split.
  - apply (proj1 (X2_refusal_by_first_failing_check Stub.lib
                    (url.mkURL "type=bogus&cd=2"))).
    left. reflexivity.
  - apply (proj1 (proj2 (proj2 (X2_refusal_by_first_failing_check Stub.lib
                    (url.mkURL "name=a.example&type=bogus&cd=2"))))
             errUnknownType (or_intror eq_refl)).
    split; [| reflexivity].
    exists "a.example". split; [reflexivity | vm_compute; split; discriminate].
Defined.

(** ** Pairs of the query string that do not count *)

Section IgnoredPairs.
Variable L : Lib.

(** [parseQuery] reads the four recognised keys only. *)
Lemma parseQuery_same_keys (u u' : url.URL) :
  (forall k, In k recognised ->
             simplify (url.Query u) !! k = simplify (url.Query u') !! k) ->
  parseQuery L u = parseQuery L u'.
Proof.
  intros H. rewrite !parseQuery_chain. cbv zeta.
  rewrite (H "name"), (H "type"), (H "cd"), (H "edns_client_subnet");
    [reflexivity | simpl; auto 10 ..].
Qed.

Lemma split_not_nil (sep : ascii) (s : string) : GoString.split sep s <> [].
Proof.
  destruct s as [| c s]; simpl; [discriminate |].
  destruct (Ascii.eqb c sep); [discriminate |].
  destruct (GoString.split sep s); discriminate.
Qed.

Lemma pieces_app (a b : string) :
  url.pieces (a +:+ "&" +:+ b) = (url.pieces a ++ url.pieces b)%list.
Proof.
  unfold url.pieces. induction a as [| c a IH]; [reflexivity |].
  simpl. rewrite IH. destruct (Ascii.eqb c "&"); [reflexivity |].
  pose proof (split_not_nil "&" a) as Hne.
  destruct (GoString.split "&" a); [congruence | reflexivity].
Qed.

Lemma decoded_pairs_app (a b : string) :
  decoded_pairs (a +:+ "&" +:+ b)
  = (decoded_pairs a ++ decoded_pairs b)%list.
Proof. unfold decoded_pairs. now rewrite pieces_app, omap_app. Qed.

Lemma values_of_app (k : string) (l1 l2 : list (string * string)) :
  values_of k (l1 ++ l2) = (values_of k l1 ++ values_of k l2)%list.
Proof. unfold values_of. now rewrite filter_app, map_app. Qed.

Lemma values_of_none (k : string) (l : list (string * string)) :
  Forall (fun kv => fst kv <> k) l -> values_of k l = [].
Proof.
  unfold values_of. induction 1 as [| kv l Hkv _ IH]; [reflexivity |].
  rewrite filter_cons. destruct (decide (fst kv = k)); [contradiction | exact IH].
Qed.

Lemma simplify_Query_lookup (raw k : string) :
  simplify (url.Query (url.mkURL raw)) !! k
  = head (values_of k (decoded_pairs raw)).
Proof.
  rewrite simplify_lookup. unfold url.Query. simpl.
  rewrite ParseQuery_lookup. now destruct (values_of k (decoded_pairs raw)).
Qed.

End IgnoredPairs.

(** X3.  Pairs added at the end of a query string change nothing when each
    of them has a key that [parseQuery] does not read or a key that the
    query string has a value for already; pairs added in front change
    nothing when their keys are not read. *)
Theorem X3_pairs_without_effect (L : Lib) (raw extra : string) :
  (Forall (fun kv => ~ In (fst kv) recognised
                     \/ values_of (fst kv) (decoded_pairs raw) <> [])
          (decoded_pairs extra) ->
   parseQuery L (url.mkURL (raw +:+ "&" +:+ extra))
   = parseQuery L (url.mkURL raw))
  /\ (Forall (fun kv => ~ In (fst kv) recognised) (decoded_pairs extra) ->
      parseQuery L (url.mkURL (extra +:+ "&" +:+ raw))
      = parseQuery L (url.mkURL raw)).
Proof.
  split; intros H; apply parseQuery_same_keys; intros k Hk;
    rewrite !simplify_Query_lookup, decoded_pairs_app, values_of_app.
  - destruct (values_of k (decoded_pairs raw)) as [| v vs] eqn:Hraw;
      [| reflexivity].
    rewrite values_of_none; [reflexivity |].
    eapply Forall_impl; [exact H |]. intros kv [Hkv | Hkv] Heq.
    + now rewrite Heq in Hkv.
    + now rewrite Heq, Hraw in Hkv.
  - rewrite values_of_none; [reflexivity |].
    eapply Forall_impl; [exact H |]. intros kv Hkv Heq.
    apply Hkv. now rewrite Heq.
Qed.

(** A tracking parameter and a second [name] after the query, and a
    tracking parameter in front of it. *)
Lemma X3_extra_pairs_example :
  parseQuery Stub.lib
    (url.mkURL ("name=example.com&type=MX" +:+ "&" +:+ "utm=1&name=b.example"))
  = parseQuery Stub.lib (url.mkURL "name=example.com&type=MX")
  /\ parseQuery Stub.lib
       (url.mkURL ("utm=1" +:+ "&" +:+ "name=example.com&type=MX"))
     = parseQuery Stub.lib (url.mkURL "name=example.com&type=MX").
Proof.
  split.
  - apply (X3_pairs_without_effect Stub.lib "name=example.com&type=MX"
             "utm=1&name=b.example").
    change (decoded_pairs "utm=1&name=b.example")
      with [("utm", "1"); ("name", "b.example")].
    constructor; [| constructor; [| constructor]].
    + left. simpl. intros [H | [H | [H | [H | []]]]]; discriminate.
    + right. vm_compute. discriminate.
  - apply (X3_pairs_without_effect Stub.lib "name=example.com&type=MX" "utm=1").
    change (decoded_pairs "utm=1") with [("utm", "1")].
    constructor; [| constructor].
    simpl. intros [H | [H | [H | [H | []]]]]; discriminate.
Defined.

(** ** Type texts: case, sign and leading zeros *)

Section TypeTexts.
Variable L : Lib.
Import GoString.

Lemma upper_lower_byte (c : ascii) : upper_byte (lower_byte c) = upper_byte c.
Proof. destruct c as [[] [] [] [] [] [] [] []]; reflexivity. Qed.

Lemma lower_byte_ascii (c : ascii) :
  (byte_of c <? RuneSelf) = true -> (byte_of (lower_byte c) <? RuneSelf) = true.
Proof.
  destruct c as [[] [] [] [] [] [] [] []]; intros H;
    first [reflexivity | exact H].
Qed.

Lemma isASCII_lower (s : string) :
  isASCII s = true -> isASCII (map_bytes lower_byte s) = true.
Proof.
  unfold isASCII, map_bytes. rewrite bytes_of_bytes.
  induction (bytes s) as [| c l IH]; simpl; [reflexivity |].
  intros H. apply andb_prop in H as [Hc Hl].
  now rewrite (lower_byte_ascii c Hc), IH.
Qed.

Lemma ToUpper_ToLower (s : string) :
  isASCII s = true -> ToUpper L (ToLower L s) = ToUpper L s.
Proof.
  intros H. unfold ToLower, ToUpper. rewrite H, (isASCII_lower s H).
  unfold map_bytes. rewrite bytes_of_bytes, map_map. f_equal.
  apply map_ext, upper_lower_byte.
Qed.

Lemma ToUpper_ToUpper (s : string) :
  isASCII s = true -> ToUpper L (ToUpper L s) = ToUpper L s.
Proof.
  intros H. unfold ToUpper. rewrite H, (isASCII_upper s H).
  unfold map_bytes. rewrite bytes_of_bytes, map_map. f_equal.
  apply map_ext. intros c.
  destruct c as [[] [] [] [] [] [] [] []]; reflexivity.
Qed.

(** A byte is a decimal digit, which folding leaves alone, or it stops the
    digit loop in base 10 with a syntax error, folded or not. *)
Lemma ParseUint_loop_folded_byte (f : ascii -> ascii) (c : ascii) :
  f = lower_byte \/ f = upper_byte ->
  f c = c
  \/ forall maxVal cutoff cs cs' n,
       strconv.ParseUint_loop 10 maxVal cutoff (c :: cs) n
       = (0, Some strconv.ErrSyntax)
       /\ strconv.ParseUint_loop 10 maxVal cutoff (f c :: cs') n
          = (0, Some strconv.ErrSyntax).
Proof.
  intros [-> | ->]; destruct c as [[] [] [] [] [] [] [] []];
    first [left; reflexivity | right; intros; split; reflexivity].
Qed.

(** The loop of [ParseUint] on one more byte, in base 10: the byte stops
    the loop, or it is a digit and the loop goes on from a number that
    the rest of the text does not change. *)
Lemma ParseUint_loop_cons (maxVal cutoff : Z) (c : ascii) (n : Z) :
  (exists r, forall cs, strconv.ParseUint_loop 10 maxVal cutoff (c :: cs) n = r)
  \/ (exists n1, forall cs,
         strconv.ParseUint_loop 10 maxVal cutoff (c :: cs) n
         = strconv.ParseUint_loop 10 maxVal cutoff cs n1).
Proof.
  cbn [strconv.ParseUint_loop].
  destruct (if (48 <=? byte_of c) && (byte_of c <=? 57)
            then Some (byte_of c - 48)
            else if (97 <=? strconv.lower (byte_of c))
                    && (strconv.lower (byte_of c) <=? 122)
                 then Some (strconv.lower (byte_of c) - 97 + 10)
                 else None) as [d |]; [| left; eauto].
  destruct (10 <=? d); [left; eauto |].
  destruct (cutoff <=? n); [left; eauto |].
  destruct ((n * 10 + d) mod 2 ^ 64 <? n * 10) eqn:E1; simpl;
    [left; eauto |].
  destruct (maxVal <? (n * 10 + d) mod 2 ^ 64); [left; eauto | right; eauto].
Qed.

Lemma ParseUint_loop_folded (f : ascii -> ascii) (maxVal cutoff : Z)
      (cs : list ascii) (n : Z) :
  f = lower_byte \/ f = upper_byte ->
  strconv.ParseUint_loop 10 maxVal cutoff (map f cs) n
  = strconv.ParseUint_loop 10 maxVal cutoff cs n.
Proof.
  intros Hf. revert n. induction cs as [| c cs IH]; intros n; [reflexivity |].
  simpl map.
  destruct (ParseUint_loop_folded_byte f c Hf) as [-> | Hstop].
  - destruct (ParseUint_loop_cons maxVal cutoff c n) as [[r Hr] | [n1 Hn1]].
    + now rewrite !Hr.
    + now rewrite !Hn1.
  - destruct (Hstop maxVal cutoff cs (map f cs) n) as [-> ->]. reflexivity.
Qed.

Lemma folded_sign (f : ascii -> ascii) (c : ascii) :
  f = lower_byte \/ f = upper_byte ->
  Ascii.eqb (f c) "+" = Ascii.eqb c "+" /\ Ascii.eqb (f c) "-" = Ascii.eqb c "-".
Proof.
  intros [-> | ->]; destruct c as [[] [] [] [] [] [] [] []];
    split; reflexivity.
Qed.

Lemma ParseUint_folded (f : ascii -> ascii) (s : string) :
  f = lower_byte \/ f = upper_byte ->
  strconv.ParseUint (map_bytes f s) 10 16 = strconv.ParseUint s 10 16.
Proof.
  intros Hf. unfold strconv.ParseUint, map_bytes.
  rewrite bytes_of_bytes, ParseUint_loop_folded by exact Hf.
  now destruct s.
Qed.

(** [ParseInt] in base 10 does not see the case of letters. *)
Lemma ParseInt_folded (f : ascii -> ascii) (s : string) :
  f = lower_byte \/ f = upper_byte ->
  strconv.ParseInt (map_bytes f s) 10 16 = strconv.ParseInt s 10 16.
Proof.
  intros Hf. destruct s as [| c rest]; [reflexivity |].
  change (map_bytes f (String c rest)) with (String (f c) (map_bytes f rest)).
  unfold strconv.ParseInt.
  destruct (folded_sign f c Hf) as [-> ->].
  destruct (Ascii.eqb c "+"); [now rewrite ParseUint_folded |].
  destruct (Ascii.eqb c "-"); [now rewrite ParseUint_folded |].
  change (String (f c) (map_bytes f rest)) with (map_bytes f (String c rest)).
  now rewrite ParseUint_folded.
Qed.

End TypeTexts.

(** X4.  The case of the letters of an ASCII type text does not matter:
    lower-cased or upper-cased, it resolves as the text itself. *)
Theorem X4_type_text_case (L : Lib) (s : string) :
  GoString.isASCII s = true ->
  stringToRRType L (ToLower L s) = stringToRRType L s
  /\ stringToRRType L (ToUpper L s) = stringToRRType L s.
Proof.
  intros H. unfold stringToRRType. split.
  - rewrite (ToUpper_ToLower L s H). unfold ToLower at 1. rewrite H.
    now rewrite ParseInt_folded by auto.
  - rewrite (ToUpper_ToUpper L s H). unfold ToUpper at 1. rewrite H.
    now rewrite ParseInt_folded by auto.
Qed.

(** The texts ["mx"], ["Mx"] and ["MX"]. *)
Lemma X4_mx_in_any_case :
  stringToRRType Stub.lib "mx" = stringToRRType Stub.lib "Mx"
  /\ stringToRRType Stub.lib "MX" = stringToRRType Stub.lib "Mx"
  /\ stringToRRType Stub.lib "Mx" = Ok 15.
Proof.
  split; [| split].
  - exact (proj1 (X4_type_text_case Stub.lib "Mx" eq_refl)).
  - exact (proj2 (X4_type_text_case Stub.lib "Mx" eq_refl)).
  - reflexivity.
Defined.

Section SignedTexts.
Variable L : Lib.

Lemma Itoa_pos (p : positive) :
  Itoa (Z.pos p) = NilEmpty.string_of_uint (Pos.to_uint p).
Proof.
  unfold Itoa. simpl Z.to_int. unfold NilZero.string_of_int,
    NilZero.string_of_uint.
  pose proof (Unsigned.to_uint_nonnil p).
  destruct (Pos.to_uint p); congruence.
Qed.

Lemma Itoa_neg (p : positive) :
  Itoa (Z.neg p) = String "-" (NilEmpty.string_of_uint (Pos.to_uint p)).
Proof.
  unfold Itoa. simpl Z.to_int. unfold NilZero.string_of_int,
    NilZero.string_of_uint.
  pose proof (Unsigned.to_uint_nonnil p).
  destruct (Pos.to_uint p); congruence.
Qed.

(** [ParseUint] for 16 bits on the decimal text of a positive number. *)
Lemma ParseUint_decimal (p : positive) :
  strconv.ParseUint (NilEmpty.string_of_uint (Pos.to_uint p)) 10 16
  = if 65535 <? Z.pos p then (65535, Some strconv.ErrRange)
    else (Z.pos p, None).
Proof.
  pose proof (ParseUint_loop_decimal (Pos.to_uint p) 0 ltac:(lia)) as Hloop.
  rewrite digits_of_pos in Hloop. rewrite <- Hloop.
  destruct (decimal_first_digit _ (Unsigned.to_uint_nonnil p))
    as (c & rest & -> & _). reflexivity.
Qed.

Lemma ParseInt_plus (p : positive) :
  strconv.ParseInt (String "+" (Itoa (Z.pos p))) 10 16
  = if Z.pos p <? 32768 then (Z.pos p, None)
    else (32767, Some strconv.ErrRange).
Proof.
  rewrite Itoa_pos. unfold strconv.ParseInt. cbn [Ascii.eqb Bool.eqb].
  rewrite ParseUint_decimal. change (2 ^ (16 - 1)) with 32768.
  destruct (Z.ltb_spec 65535 (Z.pos p));
    destruct (Z.ltb_spec (Z.pos p) 32768); try lia; cbn [negb andb];
    try (replace (32768 <=? Z.pos p) with false
          by (symmetry; apply Z.leb_gt; lia));
    try (replace (32768 <=? Z.pos p) with true
          by (symmetry; apply Z.leb_le; lia));
    reflexivity.
Qed.

Lemma ParseInt_minus (p : positive) :
  strconv.ParseInt (Itoa (Z.neg p)) 10 16
  = if Z.pos p <=? 32768 then (Z.neg p, None)
    else (-32768, Some strconv.ErrRange).
Proof.
  rewrite Itoa_neg. unfold strconv.ParseInt. cbn [Ascii.eqb Bool.eqb].
  rewrite ParseUint_decimal. change (2 ^ (16 - 1)) with 32768.
  destruct (Z.ltb_spec 65535 (Z.pos p));
    destruct (Z.leb_spec (Z.pos p) 32768); try lia; cbn [negb andb];
    try (replace (32768 <? Z.pos p) with false
          by (symmetry; apply Z.ltb_ge; lia));
    try (replace (32768 <? Z.pos p) with true
          by (symmetry; apply Z.ltb_lt; lia));
    reflexivity.
Qed.

Lemma ParseUint_loop_leading_zeros (k : nat) (s : string) :
  strconv.ParseUint_loop 10 65535 (strconv.maxUint64 / 10 + 1)
    (GoString.bytes (leading_zeros k s)) 0
  = strconv.ParseUint_loop 10 65535 (strconv.maxUint64 / 10 + 1)
      (GoString.bytes s) 0.
Proof.
  induction k as [| k IH]; [reflexivity |].
  cbn [leading_zeros GoString.bytes list_ascii_of_string].
  rewrite (ParseUint_loop_digit _ 0) by (reflexivity || lia).
  exact IH.
Qed.

Lemma ParseInt_leading_zeros (k : nat) (p : positive) :
  strconv.ParseInt (leading_zeros k (Itoa (Z.pos p))) 10 16
  = strconv.ParseInt (Itoa (Z.pos p)) 10 16.
Proof.
  rewrite Itoa_pos.
  destruct (decimal_first_digit _ (Unsigned.to_uint_nonnil p))
    as (c & rest & Hs & Hplus & Hminus).
  rewrite Hs. destruct k as [| k]; [reflexivity |].
  cbn [leading_zeros].
  rewrite (ParseInt_unsigned "0" _ eq_refl eq_refl),
    (ParseInt_unsigned c rest Hplus Hminus).
  change (String "0" (leading_zeros k (String c rest)))
    with (leading_zeros (S k) (String c rest)).
  now rewrite (ParseUint_loop_leading_zeros (S k) (String c rest)).
Qed.

Lemma ToUpper_negative (p : positive) :
  ToUpper L (Itoa (Z.neg p)) = Itoa (Z.neg p).
Proof.
  rewrite Itoa_neg.
  destruct (upper_decimal (Pos.to_uint p)) as [Hascii Hupper].
  unfold ToUpper, GoString.isASCII, GoString.map_bytes, GoString.bytes,
    GoString.of_bytes in *.
  simpl. rewrite Hascii. simpl. now rewrite Hupper.
Qed.

End SignedTexts.

(** X5.  A decimal type from 1 to 32767 is resolved to its number also
    when it is written with zeros in front, or with a plus sign. *)
Theorem X5_type_with_zeros_or_plus (L : Lib) (n : Z) (k : nat) :
  1 <= n <= 32767 ->
  stringToRRType L (leading_zeros k (Itoa n)) = Ok n
  /\ stringToRRType L (String "+" (Itoa n)) = Ok n.
Proof.
  intros Hn. destruct n as [| p |]; try lia. unfold stringToRRType.
  rewrite ParseInt_leading_zeros, ParseInt_decimal, ParseInt_plus by lia.
  replace (Z.pos p <? 32768) with true by (symmetry; apply Z.ltb_lt; lia).
  replace ((1 <=? Z.pos p) && (Z.pos p <=? 65535)) with true
    by (symmetry; apply andb_true_intro; split; lia).
  rewrite Z.mod_small by lia. split; reflexivity.
Qed.

(** The texts ["0028"] and ["+28"]. *)
Lemma X5_type_0028_and_plus_28 :
  stringToRRType Stub.lib "0028" = Ok 28
  /\ stringToRRType Stub.lib "+28" = Ok 28.
Proof.
  exact (X5_type_with_zeros_or_plus Stub.lib 28 2 ltac:(lia)).
Defined.

(** X6.  The decimal text of a number from -32768 to 0 is refused with
    [errIntOutOfRange]; below -32768 the text is not taken as a number
    but looked up in the table of type names. *)
Theorem X6_nonpositive_types (L : Lib) (n : Z) :
  (-32768 <= n <= 0 -> stringToRRType L (Itoa n) = Err errIntOutOfRange)
  /\ (n < -32768 ->
      stringToRRType L (Itoa n)
      = match StringToType L !! Itoa n with
        | Some rrType => Ok rrType
        | None => Err errUnknownType
        end).
Proof.
  split; intros Hn.
  - destruct n as [| p | p]; [reflexivity | lia |].
    unfold stringToRRType. rewrite ParseInt_minus.
    replace (Z.pos p <=? 32768) with true by (symmetry; apply Z.leb_le; lia).
    now replace ((1 <=? Z.neg p) && (Z.neg p <=? 65535)) with false
      by (symmetry; apply andb_false_intro1, Z.leb_gt; lia).
  - destruct n as [| p | p]; try lia.
    unfold stringToRRType. rewrite ParseInt_minus, ToUpper_negative.
    replace (Z.pos p <=? 32768) with false by (symmetry; apply Z.leb_gt; lia).
    destruct (StringToType L !! Itoa (Z.neg p)); reflexivity.
Qed.

(** The texts ["-1"] and ["-40000"]. *)
Lemma X6_types_minus_1_and_minus_40000 :
  stringToRRType Stub.lib "-1" = Err errIntOutOfRange
  /\ stringToRRType Stub.lib "-40000" = Err errUnknownType.
Proof.
  split.
  - exact (proj1 (X6_nonpositive_types Stub.lib (-1)) ltac:(lia)).
  - exact (proj2 (X6_nonpositive_types Stub.lib (-40000)) ltac:(lia)).
Defined.

(** ** The runs of the handler *)

Section Runs.
Variable L : Lib.
Import GoString.

Lemma parseQuery_errors (u : url.URL) (e : error) :
  parseQuery L u = Err e -> In e validation_errors.
Proof.
  rewrite parseQuery_chain. cbv zeta. unfold validation_errors.
  destruct (simplify (url.Query u) !! "name") as [n |];
    [| intros [= <-]; simpl; auto 10].
  destruct (String.eqb n EmptyString); [intros [= <-]; simpl; auto 10 |].
  destruct (253 <? len n); [intros [= <-]; simpl; auto 10 |].
  destruct (match simplify (url.Query u) !! "type" with
            | Some t => stringToRRType L t
            | None => Ok 1
            end) as [rrType | err] eqn:Ht.
  2: { intros [= <-].
       destruct (simplify (url.Query u) !! "type") as [t |]; [| discriminate].
       apply stringToRRType_errors in Ht as [-> | ->]; simpl; auto 10. }
  destruct (match simplify (url.Query u) !! "cd" with
            | Some v => stringToBool L v
            | None => Ok false
            end) as [b | err] eqn:Hcd.
  2: { intros [= <-].
       destruct (simplify (url.Query u) !! "cd") as [v |]; [| discriminate].
       apply stringToBool_errors in Hcd as ->. simpl; auto 10. }
  destruct (simplify (url.Query u) !! "edns_client_subnet") as [c |];
    [| discriminate].
  destruct (net.ParseCIDR (ParseAddr L) c) as [[lit ipnet] |];
    [discriminate | intros [= <-]; simpl; auto 10].
Qed.

Lemma of_bytes_app (a b : list ascii) :
  of_bytes (a ++ b) = of_bytes a +:+ of_bytes b.
Proof.
  unfold of_bytes. induction a as [| c a IH]; simpl; [reflexivity |].
  now rewrite IH.
Qed.

Lemma of_bytes_length (l : list ascii) : String.length (of_bytes l) = length l.
Proof.
  unfold of_bytes. induction l as [| c l IH]; simpl; [reflexivity |].
  now rewrite IH.
Qed.

Lemma bytes_length (s : string) : length (bytes s) = String.length s.
Proof.
  unfold bytes. induction s as [| c s IH]; simpl; [reflexivity |].
  now rewrite IH.
Qed.

(** A slice from [n] on fails exactly beyond the end of the text, and
    otherwise leaves what follows the first [n] bytes. *)
Lemma slice_from_None (s : string) (n : nat) :
  slice_from s n = None <-> (String.length s < n)%nat.
Proof.
  unfold slice_from. destruct (Nat.leb_spec n (String.length s)).
  - split; [discriminate | lia].
  - split; [intros _; assumption | reflexivity].
Qed.

Lemma slice_from_Some (s data : string) (n : nat) :
  slice_from s n = Some data ->
  exists front, s = front +:+ data /\ String.length front = n.
Proof.
  unfold slice_from. destruct (Nat.leb_spec n (String.length s)) as [Hn | Hn];
    [| discriminate].
  intros [= <-]. exists (of_bytes (take n (bytes s))). split.
  - rewrite <- of_bytes_app, take_drop. unfold of_bytes, bytes.
    now rewrite string_of_list_ascii_of_string.
  - rewrite of_bytes_length, length_take, bytes_length. lia.
Qed.

(** The loop over the answers panics exactly when an answer is too short,
    and otherwise adds one record for each answer, in order. *)
Lemma answer_loop_None (answers : list dns.RR) (jr : dnsjson.Response) :
  answer_loop L answers jr = None <-> Exists (too_short L) answers.
Proof.
  revert jr. induction answers as [| a answers IH]; intros jr; simpl.
  - split; [discriminate | intros H; inversion H].
  - destruct (slice_from (RR_String L a)
                (String.length (Header_String L (dns.Header a)))) as [data |] eqn:Hs.
    + rewrite IH. split; [intros H; now apply Exists_cons_tl |].
      intros H. inversion H as [? ? Hshort | ? ? Hrest]; subst; [| exact Hrest].
      apply slice_from_None in Hshort. congruence.
    + split; [| reflexivity]. intros _. apply Exists_cons_hd.
      now apply slice_from_None.
Qed.

Lemma answer_loop_Some (answers : list dns.RR) (jr jr' : dnsjson.Response) :
  answer_loop L answers jr = Some jr' ->
  exists jas,
    Forall2 (answer_cut L) answers jas
    /\ jr' = dnsjson.mkResponse (dnsjson.Status jr) (dnsjson.TC jr)
               (dnsjson.RD jr) (dnsjson.RA jr) (dnsjson.AD jr)
               (dnsjson.CD jr) (dnsjson.Question jr)
               (dnsjson.Answer jr ++ jas)%list.
Proof.
  revert jr. induction answers as [| a answers IH]; intros jr; simpl.
  - intros [= <-]. exists []. split; [constructor |].
    rewrite app_nil_r. now destruct jr.
  - destruct (slice_from (RR_String L a)
                (String.length (Header_String L (dns.Header a)))) as [data |] eqn:Hs;
      [| discriminate].
    intros H. apply IH in H as (jas & Hjas & ->).
    exists (dnsjson.mkRR (dns.Hdr_Name (dns.Header a))
                         (dns.Rrtype (dns.Header a))
                         (dns.Ttl (dns.Header a)) data :: jas).
    split.
    + constructor; [| exact Hjas]. repeat split.
      exact (slice_from_Some _ _ _ Hs).
    + simpl. now rewrite <- app_assoc.
Qed.

End Runs.

(** X7.  A run of the handler that ends has answered the client exactly
    once: with status 400 and one of the six texts of the parser, without
    any exchange, or after one exchange with the configured upstream, with
    a body or with status 424, 408 or 500.  A run that panics has made the
    exchange and answered nothing. *)
Theorem X7_one_answer_per_run (L : Lib) (s : Server) (req : http.Request) :
  match Resolve L s req [] with
  | Done _ w =>
      (exists msg, w = [EvError msg http.StatusBadRequest]
                   /\ In msg validation_errors)
      \/ (exists r answer, w = [EvExchange r (Upstream s); answer]
                           /\ is_answer answer)
  | Panicked w => exists r, w = [EvExchange r (Upstream s)]
  end.
Proof.
  destruct (parseQuery L (http.URL req)) as [q | err] eqn:Hq.
  - rewrite (Resolve_exchanged L s req q Hq). cbv zeta.
    destruct (Exchange L (request_of L q) (Upstream s))
      as [[fromUp |] [err |]]; try (right; eexists _, _; split;
                                    [reflexivity | simpl; auto]).
    destruct (response_of L fromUp) as [jr |]; [| eauto].
    destruct (Marshal L jr); right; eexists _, _; split;
      first [reflexivity | simpl; auto].
  - rewrite (Resolve_refused L s req err Hq). left. exists err.
    split; [reflexivity |]. exact (parseQuery_errors L _ _ Hq).
Qed.

(** X8.  The conversion of a reply panics exactly when the rendering of
    one of its answers is shorter than the rendering of that answer's
    header; the handler then panics after the exchange. *)
Theorem X8_panic_on_short_answer (L : Lib) (fromUp : dns.Msg) :
  (response_of L fromUp = None <-> Exists (too_short L) (dns.Answer fromUp))
  /\ (forall s req q,
        parseQuery L (http.URL req) = Ok q ->
        Exchange L (request_of L q) (Upstream s) = (Some fromUp, None) ->
        Exists (too_short L) (dns.Answer fromUp) ->
        Resolve L s req [] = Panicked [EvExchange (request_of L q) (Upstream s)]).
Proof.
  assert (response_of L fromUp = None
          <-> Exists (too_short L) (dns.Answer fromUp)) as Hiff.
  { unfold response_of. apply answer_loop_None. }
  split; [exact Hiff |].
  intros s req q Hq Hx Hshort. rewrite (Resolve_exchanged L s req q Hq).
  cbv zeta. rewrite Hx. apply Hiff in Hshort. now rewrite Hshort.
Qed.

(** An answer rendered as ["ab"], with a header text of three bytes. *)
Lemma X8_panic_on_two_bytes :
  Resolve (Stub_fixed_header "ab") (Stub_server "up:53")
          (Stub_request "name=a.example") []
  = Panicked [EvExchange
                (request_of (Stub_fixed_header "ab")
                            (mkquery "a.example" 1 false None))
                "up:53"].
Proof.
  apply (proj2 (X8_panic_on_short_answer (Stub_fixed_header "ab")
                  (dns.mkMsg 4242 false true true false false 0
                     [dns.mkQuestion "a.example." 1 1]
                     [dns.Record_ (dns.mkRR_Header "a.example." 1 1 60 4) "ab"]
                     [])));
    [reflexivity | reflexivity |].
  apply Exists_cons_hd. unfold too_short. simpl. lia.
Defined.

(** X9.  When the conversion of a reply succeeds, the response has one
    entry for each question and for each answer, in order, and the data
    of an answer is its rendering without its first bytes, as many as the
    header text has, whether that text is in front of the rendering or
    not. *)
Theorem X9_answer_data_cut_by_length
  (L : Lib) (fromUp : dns.Msg) (jr : dnsjson.Response) :
  response_of L fromUp = Some jr ->
  dnsjson.Question jr = map question_of (dns.Questions fromUp)
  /\ Forall2 (answer_cut L) (dns.Answer fromUp) (dnsjson.Answer jr).
Proof.
  unfold response_of. rewrite question_loop_spec. simpl.
  intros H. apply answer_loop_Some in H as (jas & Hjas & ->). simpl.
  split; [reflexivity | exact Hjas].
Qed.

(** An answer rendered as ["abcdef"], with the header text ["hdr"]: the
    data is ["def"]. *)
Lemma X9_data_of_abcdef :
  [dnsjson.mkRR "a.example." 1 0 EmptyString]
  = [question_of (dns.mkQuestion "a.example." 1 1)]
  /\ Forall2 (answer_cut (Stub_fixed_header "abcdef"))
       [dns.Record_ (dns.mkRR_Header "a.example." 1 1 60 4) "abcdef"]
       [dnsjson.mkRR "a.example." 1 60 "def"].
Proof.
  exact (X9_answer_data_cut_by_length (Stub_fixed_header "abcdef")
           (dns.mkMsg 4242 false true true false false 0
              [dns.mkQuestion "a.example." 1 1]
              [dns.Record_ (dns.mkRR_Header "a.example." 1 1 60 4) "abcdef"]
              [])
           (dnsjson.mkResponse 0 false true true false false
              [dnsjson.mkRR "a.example." 1 0 EmptyString]
              [dnsjson.mkRR "a.example." 1 60 "def"])
           eq_refl).
Defined.

(** ** Client subnets *)

Section Subnets.
Variable L : Lib.
Import GoString.

Lemma Cut_found (sep : ascii) (s : string) :
  snd (Cut sep s) = Contains sep s.
Proof.
  induction s as [| c s IH]; simpl; [reflexivity |].
  destruct (Ascii.eqb c sep); [reflexivity |].
  destruct (Cut sep s) as [[before after] found]. exact IH.
Qed.

(** Three ways for a CIDR string to be refused. *)
Lemma ParseCIDR_refused (s : string) :
  Contains "/" s = false
  \/ ParseAddr L (cidr_address s) = None
  \/ (exists a, ParseAddr L (cidr_address s) = Some a
                /\ netip.BitLen a < cidr_prefix s) ->
  net.ParseCIDR (ParseAddr L) s = None.
Proof.
  unfold net.ParseCIDR, cidr_address, cidr_prefix.
  pose proof (Cut_found "/" s) as Hfound.
  destruct (Cut "/" s) as [[addr mask] found]. simpl in Hfound. subst found.
  intros [-> | [-> | (a & -> & Hbits)]]; [reflexivity | | ].
  - now destruct (Contains "/" s).
  - destruct (Contains "/" s); [| reflexivity]. simpl.
    destruct (negb (String.eqb (netip.Zone a) EmptyString)); [reflexivity |].
    destruct (net.dtoi mask) as [[n i] ok].
    replace (netip.BitLen a <? n) with true by (symmetry; apply Z.ltb_lt; lia).
    now rewrite !orb_true_r.
Qed.

Lemma To4_length (ip v4 : net.IP) :
  net.To4 ip = Some v4 -> length ip = 16%nat \/ length ip = 4%nat ->
  length v4 = 4%nat.
Proof.
  unfold net.To4, net.IPv4len, net.IPv6len. intros H [Hlen | Hlen];
    rewrite Hlen in H; simpl in H.
  - destruct (_ && _); [| discriminate]. injection H as <-.
    rewrite length_take, length_drop. lia.
  - now injection H as <-.
Qed.

Lemma To4_None_length (ip : net.IP) :
  net.To4 ip = None -> length ip <> 4%nat.
Proof.
  unfold net.To4, net.IPv4len. intros H Hlen. rewrite Hlen in H. discriminate.
Qed.

End Subnets.

(** X10.  A query with an accepted name, type and [cd] whose
    [edns_client_subnet] has no slash, or an address that the address
    parser refuses, or a prefix longer than the address, is answered with
    status 400 and [errInvalidSubnet], without any exchange. *)
Theorem X10_refused_subnets
  (L : Lib) (s : Server) (req : http.Request) (c : string) :
  let vs := simplify (url.Query (http.URL req)) in
  (exists n, name_accepted vs n) ->
  (exists t, type_of L vs = Ok t) ->
  (exists b, cd_of L vs = Ok b) ->
  vs !! "edns_client_subnet" = Some c ->
  GoString.Contains "/" c = false
  \/ ParseAddr L (cidr_address c) = None
  \/ (exists a, ParseAddr L (cidr_address c) = Some a
                /\ netip.BitLen a < cidr_prefix c) ->
  parseQuery L (http.URL req) = Err errInvalidSubnet
  /\ Resolve L s req [] = Done tt [EvError errInvalidSubnet http.StatusBadRequest].
Proof.
  intros vs [n Hn] [t Ht] [b Hb] Hc Hbad.
  assert (parseQuery L (http.URL req) = Err errInvalidSubnet) as Hq.
  { rewrite parseQuery_chain. cbv zeta. fold vs.
    destruct (name_accepted_chain vs n Hn) as (-> & -> & ->).
    unfold type_of in Ht. unfold cd_of in Hb. rewrite Ht, Hb, Hc.
    now rewrite (ParseCIDR_refused L c Hbad). }
  split; [exact Hq |]. now apply Resolve_refused.
Qed.

(** A bare address and a prefix of 33 bits on an IPv4 address. *)
Lemma X10_bare_address_and_prefix_33 :
  (parseQuery Stub.lib
     (url.mkURL "name=a.example&edns_client_subnet=1.2.3.4")
   = Err errInvalidSubnet
   /\ Resolve Stub.lib (Stub_server "up:53")
        (Stub_request "name=a.example&edns_client_subnet=1.2.3.4") []
      = Done tt [EvError errInvalidSubnet 400])
  /\ (parseQuery Stub.lib
        (url.mkURL "name=a.example&edns_client_subnet=1.2.3.4/33")
      = Err errInvalidSubnet
      /\ Resolve Stub.lib (Stub_server "up:53")
           (Stub_request "name=a.example&edns_client_subnet=1.2.3.4/33") []
         = Done tt [EvError errInvalidSubnet 400]).
Proof.
  split.
  - apply (X10_refused_subnets Stub.lib (Stub_server "up:53")
             (Stub_request "name=a.example&edns_client_subnet=1.2.3.4")
             "1.2.3.4").
    + exists "a.example". split; [reflexivity | vm_compute; split; discriminate].
    + exists 1. reflexivity.
    + exists false. reflexivity.
    + reflexivity.
    + left. reflexivity.
  - apply (X10_refused_subnets Stub.lib (Stub_server "up:53")
             (Stub_request "name=a.example&edns_client_subnet=1.2.3.4/33")
             "1.2.3.4/33").
    + exists "a.example". split; [reflexivity | vm_compute; split; discriminate].
    + exists 1. reflexivity.
    + exists false. reflexivity.
    + reflexivity.
    + right. right. exists (netip.AddrFrom4 1 2 3 4).
      split; [reflexivity | vm_compute; reflexivity].
Defined.

(** X11.  The option made for the client subnet of an accepted query has
    family 1 with an address of 4 bytes, or family 2 with an address of
    16 bytes; a subnet with a 4-byte mask always gives family 1. *)
Theorem X11_family_and_address_length
  (L : Lib) (u : url.URL) (q : query) (ipnet : net.IPNet) :
  parseQuery L u = Ok q -> clientSubnet q = Some ipnet ->
  exists e,
    Options (subnet_OPT ipnet) = [e]
    /\ (dns.Family e = 1 /\ length (dns.Address e) = 4%nat
        \/ dns.Family e = 2 /\ length (dns.Address e) = 16%nat)
    /\ (length (net.IPNet_Mask ipnet) = 4%nat -> dns.Family e = 1).
Proof.
  intros Hq Hs.
  destruct (parseQuery_clientSubnet L u q ipnet Hq Hs) as (c & lit & _ & Hc).
  apply ParseCIDR_network in Hc as (bits & Hb & Hn & Hlit & Hm & Hlen & Hip).
  assert (length (drop (Z.to_nat (16 - bits / 8)) lit)
          = length (net.IPNet_Mask ipnet)) as Hsame.
  { rewrite length_drop, Hlit. destruct Hb; subst bits; simpl in *; lia. }
  assert (length (net.IPNet_IP ipnet) = length (net.IPNet_Mask ipnet)) as Hwidth.
  { rewrite Hip, length_map, length_combine, Hsame. lia. }
  unfold subnet_OPT.
  destruct (net.To4 (net.IPNet_IP ipnet)) as [ipv4 |] eqn:H4;
    destruct (net.Size (net.IPNet_Mask ipnet)) as [ones maskSize];
    simpl; eexists; (split; [reflexivity |]); simpl.
  - split; [| reflexivity]. left. split; [reflexivity |].
    apply (To4_length _ _ H4). destruct Hb; subst bits; lia.
  - apply To4_None_length in H4. split.
    + right. split; [reflexivity |]. destruct Hb; subst bits; lia.
    + intros Hmask. lia.
Qed.

(** The subnets [1.2.3.4/24] and [2001:db8:0:0:0:0:0:0/32]. *)
Lemma X11_families_of_two_subnets :
  (exists e,
      Options (subnet_OPT (net.mkIPNet [1; 2; 3; 0] [255; 255; 255; 0])) = [e]
      /\ (dns.Family e = 1 /\ length (dns.Address e) = 4%nat
          \/ dns.Family e = 2 /\ length (dns.Address e) = 16%nat)
      /\ (length [255; 255; 255; 0] = 4%nat -> dns.Family e = 1))
  /\ exists q,
       parseQuery Stub.lib
         (url.mkURL "name=a.example&edns_client_subnet=2001:db8:0:0:0:0:0:0/32")
       = Ok q
       /\ map dns.Family (flat_map Options (dns.Extra (request_of Stub.lib q)))
          = [2].
Proof.
  split.
  - exact (X11_family_and_address_length Stub.lib
             (url.mkURL "name=a.example&edns_client_subnet=1.2.3.4/24")
             (mkquery "a.example" 1 false
                (Some (net.mkIPNet [1; 2; 3; 0] [255; 255; 255; 0])))
             (net.mkIPNet [1; 2; 3; 0] [255; 255; 255; 0]) eq_refl eq_refl).
  - eexists. split; reflexivity.
Defined.

(** ** The range of numeric types *)

Section NumericRange.
Variable L : Lib.

Lemma ParseUint_loop_nonneg (base maxVal cutoff : Z) (cs : list ascii) (n : Z) :
  0 <= n -> 0 <= maxVal ->
  0 <= fst (strconv.ParseUint_loop base maxVal cutoff cs n).
Proof.
  intros Hn Hmax. revert n Hn.
  induction cs as [| c cs IH]; intros n Hn; [exact Hn |].
  cbn [strconv.ParseUint_loop].
  destruct (if (48 <=? GoString.byte_of c) && (GoString.byte_of c <=? 57)
            then Some (GoString.byte_of c - 48)
            else if (97 <=? strconv.lower (GoString.byte_of c))
                    && (strconv.lower (GoString.byte_of c) <=? 122)
                 then Some (strconv.lower (GoString.byte_of c) - 97 + 10)
                 else None) as [d |]; [| simpl; lia].
  destruct (base <=? d); [simpl; lia |].
  destruct (cutoff <=? n); [exact Hmax |].
  destruct (_ || _); [exact Hmax |].
  apply IH. apply Z.mod_pos_bound. lia.
Qed.

Lemma ParseUint_nonneg (s : string) :
  0 <= fst (strconv.ParseUint s 10 16).
Proof.
  unfold strconv.ParseUint. destruct (String.eqb s EmptyString); [simpl; lia |].
  cbn [Z.leb Z.ltb Z.compare Pos.compare Pos.compare_cont negb andb orb].
  apply ParseUint_loop_nonneg; [lia | change (2 ^ 16 - 1) with 65535; lia].
Qed.

(** The numbers that [ParseInt] returns for 16 bits without error. *)
Lemma ParseInt_range (s : string) (i : Z) :
  strconv.ParseInt s 10 16 = (i, None) -> -32768 <= i <= 32767.
Proof.
  unfold strconv.ParseInt. destruct s as [| c0 rest]; [discriminate |].
  set (p := if Ascii.eqb c0 "+" then (false, rest)
            else if Ascii.eqb c0 "-" then (true, rest)
                 else (false, String c0 rest)).
  destruct p as [neg s1].
  pose proof (ParseUint_nonneg s1) as Hun.
  destruct (strconv.ParseUint s1 10 16) as [un [[] |]]; [discriminate | |];
    simpl in Hun; change (2 ^ (16 - 1)) with 32768;
    (destruct neg; cbn [negb andb];
     [destruct (Z.ltb_spec 32768 un); [discriminate |]
     |destruct (Z.leb_spec 32768 un); [discriminate |]]);
    intros [= <-]; lia.
Qed.

End NumericRange.

(** X12.  A type that is resolved is a number from 1 to 32767 written in
    the text, or the code that the table of type names has for the
    upper-cased text: no text resolves to 0 as a number. *)
Theorem X12_resolved_type_range (L : Lib) (s : string) (t : Z) :
  stringToRRType L s = Ok t ->
  (fst (strconv.ParseInt s 10 16) = t /\ 1 <= t <= 32767)
  \/ StringToType L !! ToUpper L s = Some t.
Proof.
  unfold stringToRRType.
  destruct (strconv.ParseInt s 10 16) as [i [e |]] eqn:Hp.
  - destruct (StringToType L !! ToUpper L s); [| discriminate].
    intros [= <-]. right. reflexivity.
  - apply ParseInt_range in Hp.
    destruct (Z.leb_spec 1 i); [| discriminate].
    destruct (Z.leb_spec i 65535); [| discriminate].
    simpl. intros [= <-]. left. rewrite Z.mod_small by lia. simpl. lia.
Qed.

(** The texts ["255"] and ["any"]. *)
Lemma X12_types_255_and_any :
  ((fst (strconv.ParseInt "255" 10 16) = 255 /\ 1 <= 255 <= 32767)
   \/ StringToType Stub.lib !! ToUpper Stub.lib "255" = Some 255)
  /\ ((fst (strconv.ParseInt "any" 10 16) = 255 /\ 1 <= 255 <= 32767)
      \/ StringToType Stub.lib !! ToUpper Stub.lib "any" = Some 255).
Proof.
  split.
  - exact (X12_resolved_type_range Stub.lib "255" 255 eq_refl).
  - exact (X12_resolved_type_range Stub.lib "any" 255 eq_refl).
Defined.
